(** * Financeiro Inteligente: the data-access layer of [database.py]

    A shallow embedding of the record classes [User], [Transaction],
    [Account] and [FinancialGoal] and of the SQLite store they wrap,
    followed by the properties of the subscription check, the goal
    progress, the plan table, [save], the lookups and the aggregates.

    Python values keep their Python shape: an attribute that may be [None]
    is an [option], a [float] is a binary64 [float], a raised exception is
    the [Raise] outcome of a call.  The store is explicit state: every
    operation that executes a statement takes the database and returns the
    database it leaves behind. *)

From Stdlib Require Import ZArith Floats Ascii String Lia.
From stdpp Require Import gmap strings list fin_maps sorting pretty.

Local Open Scope Z_scope.

(** ** Python: outcomes of a call, values, strings, numbers, datetimes *)

Module Py.

(** The exceptions the modelled code can raise. *)
Inductive exn : Type :=
| ValueError          (* datetime.fromisoformat on a malformed string *)
| TypeError           (* ordering a naive against an aware datetime *)
| ZeroDivisionError   (* float division by zero *)
| IntegrityError      (* sqlite3: a NOT NULL or UNIQUE constraint failed *)
| OverflowError.      (* sqlite3: an int parameter outside 64 bits *)

(** A call either returns a value or raises. *)
Inductive result (A : Type) : Type :=
| Return (a : A)
| Raise (e : exn).
Global Arguments Return {A} a.
Global Arguments Raise {A} e.

Global Instance result_ret : MRet result := fun A a => Return a.
Global Instance result_bind : MBind result := fun A B f m =>
  match m with
  | Return a => f a
  | Raise e => Raise e
  end.

(** What [a and b and c] or a bare [return] can hand back in the code
    modelled here. *)
Inductive value : Type :=
| None_
| Bool (b : bool)
| Str (s : string).

(** Truth value of an optional string: [None] and [''] are falsy. *)
Definition truthy_str (s : option string) : bool :=
  match s with
  | None => false
  | Some EmptyString => false
  | Some (String _ _) => true
  end.

(** [x or default] for an optional string. *)
Definition str_or (s : option string) (default : string) : string :=
  match s with
  | Some (String a r) => String a r
  | _ => default
  end.

(** [s.replace(c, by_)] for a one-character pattern [c]: every
    occurrence, left to right. *)
Fixpoint replace (c : ascii) (by_ : string) (s : string) : string :=
  match s with
  | EmptyString => EmptyString
  | String a r =>
      if Ascii.eqb a c then by_ +:+ replace c by_ r
      else String a (replace c by_ r)
  end.

(** [str(n)] for an int. *)
Definition py_str (n : Z) : string := pretty n.

(** ['0' * k + s] up to width [w] ([str.zfill] without the sign rule). *)
Fixpoint zeros (k : nat) : string :=
  match k with
  | O => EmptyString
  | S k' => String "0" (zeros k')
  end.
Definition zfill (w : nat) (s : string) : string :=
  zeros (w - String.length s) +:+ s.

(** [format(n, '0wd')], which is also C's [%0wd]: zero padding to width
    [w], the sign counted in the width. *)
Definition format_0d (w : nat) (n : Z) : string :=
  if n <? 0 then "-" +:+ zfill (w - 1) (pretty (- n))
  else zfill w (pretty n).

(** *** Floats *)

(** [bool(x)] for a float: [x != 0.0]; a NaN is truthy. *)
Definition truthy_float (x : float) : bool := negb (PrimFloat.eqb x 0%float).

(** [float(a) if a else 0.0] for an optional float. *)
Definition float_or_zero (a : option float) : float :=
  match a with
  | Some x => if truthy_float x then x else 0%float
  | None => 0%float
  end.

(** [bool(a) if a else False] for an optional int (a Python [bool] is
    the int 0 or 1). *)
Definition bool_or_false (a : option Z) : bool :=
  match a with
  | Some n => negb (n =? 0)
  | None => false
  end.

(** [a / b] on floats raises on a zero divisor. *)
Definition truediv (a b : float) : result float :=
  if PrimFloat.eqb b 0%float then Raise ZeroDivisionError
  else Return (PrimFloat.div a b).

(** A number is an [int] or a [float]. *)
Inductive number : Type :=
| Int (n : Z)
| Float (x : float).

(** The float nearest to an int; exact for [|n| <= 2^53], which covers
    the constants compared against below. *)
Definition float_of_int (n : Z) : float :=
  if n <? 0 then PrimFloat.opp (PrimFloat.of_uint63 (Uint63.of_Z (- n)))
  else PrimFloat.of_uint63 (Uint63.of_Z n).

Definition num_lt (a b : number) : bool :=
  match a, b with
  | Int m, Int n => m <? n
  | Int m, Float y => PrimFloat.ltb (float_of_int m) y
  | Float x, Int n => PrimFloat.ltb x (float_of_int n)
  | Float x, Float y => PrimFloat.ltb x y
  end.

Definition num_le (a b : number) : bool :=
  match a, b with
  | Int m, Int n => m <=? n
  | Int m, Float y => PrimFloat.leb (float_of_int m) y
  | Float x, Int n => PrimFloat.leb x (float_of_int n)
  | Float x, Float y => PrimFloat.leb x y
  end.

(** [min(a, b)]: the first argument unless the second is smaller. *)
Definition py_min (a b : number) : number := if num_lt b a then b else a.

(** *** Datetimes *)

(** A [datetime]: the wall-clock reading in microseconds since the
    epoch, and the UTC offset (microseconds) when the value is aware.
    [tzoffset = None] is a naive datetime.  The ends of the calendar
    (years 1 and 9999) are not modelled: adding a week never overflows. *)
Record datetime : Type := mk_datetime {
  wall : Z;
  tzoffset : option Z
}.

Definition naive (t : Z) : datetime := mk_datetime t None.

(** [timedelta(days=n)] in microseconds. *)
Definition timedelta_days (n : Z) : Z := n * 86400 * 1000000.

(** [d + timedelta]. *)
Definition dt_add (d : datetime) (delta : Z) : datetime :=
  mk_datetime (wall d + delta) (tzoffset d).

(** [a > b].  Two naive values compare by wall clock, two aware values
    by instant; a naive and an aware value cannot be ordered. *)
Definition dt_gt (a b : datetime) : result bool :=
  match tzoffset a, tzoffset b with
  | None, None => Return (wall b <? wall a)
  | Some oa, Some ob => Return (wall b - ob <? wall a - oa)
  | _, _ => Raise TypeError
  end.

(** [a <= b], with the same rule. *)
Definition dt_le (a b : datetime) : result bool :=
  match tzoffset a, tzoffset b with
  | None, None => Return (wall a <=? wall b)
  | Some oa, Some ob => Return (wall a - oa <=? wall b - ob)
  | _, _ => Raise TypeError
  end.

End Py.

Import Py.

(** ** The libraries under the code

    [database.py] calls into Python's [datetime], werkzeug and SQLite's
    date functions.  Their text formats are not this repository's code:
    the development is parametric in them, and [reference_runtime] below
    is an instance to evaluate with. *)

Class Runtime : Type := {
  (** [datetime.fromisoformat]; [None] is [ValueError]. *)
  fromisoformat : string -> option datetime;
  (** [d.isoformat()] of a naive datetime given by its wall clock. *)
  isoformat : Z -> string;
  (** [generate_password_hash(password)], the salt drawn made explicit. *)
  generate_password_hash : string -> string -> string;
  (** SQLite's reading of a time value as a calendar day
      [(year, month, day)]; [None] when it is no time value. *)
  sqlite_date : string -> option (Z * Z * Z)
}.

(** ** SQLite: NULLs, tables with AUTOINCREMENT keys, aggregates *)

Module Sql.

(** [a = b] in SQL: NULL when an operand is NULL. *)
Definition eq {A : Type} `{EqDecision A} (a b : option A) : option bool :=
  match a, b with
  | Some x, Some y => Some (bool_decide (x = y))
  | _, _ => None
  end.

(** [a AND b] in SQL's three-valued logic. *)
Definition and (a b : option bool) : option bool :=
  match a, b with
  | Some false, _ => Some false
  | _, Some false => Some false
  | Some true, Some true => Some true
  | _, _ => None
  end.

(** A WHERE clause keeps the rows on which it is true (not NULL). *)
Definition holds (c : option bool) : bool :=
  match c with
  | Some true => true
  | _ => false
  end.

(** A table whose key is [INTEGER PRIMARY KEY AUTOINCREMENT]: the rows
    by rowid, and the largest rowid ever handed out (sqlite_sequence). *)
Record table (R : Type) : Type := mk_table {
  rows : gmap Z R;
  seq : Z
}.
Global Arguments mk_table {R} rows seq.
Global Arguments rows {R} t.
Global Arguments seq {R} t.

Definition empty_table {R : Type} : table R := mk_table ∅ 0.

Definition max_rowid {R : Type} (m : gmap Z R) : Z :=
  map_fold (fun k _ acc => Z.max k acc) 0 m.

(** The rowid AUTOINCREMENT gives the next row: one more than the
    largest rowid that exists or ever existed. *)
Definition next_rowid {R : Type} (t : table R) : Z :=
  Z.max (seq t) (max_rowid (rows t)) + 1.

(** [INSERT] of one row; returns the table and [cursor.lastrowid]. *)
Definition insert {R : Type} (r : R) (t : table R) : table R * Z :=
  let k := next_rowid t in (mk_table (<[k := r]> (rows t)) k, k).

(** [UPDATE ... WHERE id = k] with the row rewritten by [f]; no row, no
    change. *)
Definition update {R : Type} (k : Z) (f : R -> R) (t : table R) : table R :=
  mk_table (alter f k (rows t)) (seq t).

(** A full scan, in rowid order. *)
Definition rowid_le {R : Type} (a b : Z * R) : Prop := a.1 <= b.1.
Global Instance rowid_le_dec {R : Type} : RelDecision (@rowid_le R).
Proof. intros a b. unfold rowid_le. apply _. Defined.

Definition scan {R : Type} (t : table R) : list (Z * R) :=
  merge_sort rowid_le (map_to_list (rows t)).

(** [SELECT ... WHERE c] then [fetchone()]: the first row kept. *)
Definition fetchone {R : Type} (c : Z -> R -> option bool) (t : table R)
  : option (Z * R) :=
  List.find (fun kr => holds (c kr.1 kr.2)) (scan t).

(** Binding a Python int to an INTEGER parameter: the sqlite3 module
    takes an int of the signed 64-bit range and refuses any other with
    OverflowError, before the statement runs. *)
Definition bindable (n : Z) : bool := (- 2 ^ 63 <=? n) && (n <? 2 ^ 63).

(** [cursor.execute(sql, params)] with the Python ints [params] bound,
    then [fetchone()].  Every integer SQLite stores is a 64-bit one, so
    a parameter the module refuses equals no stored value and the
    refusal takes the place of a miss; the tables of this model are
    keyed by [Z] and do not carry the bound, which is why the test
    stands on the miss. *)
Definition execute_fetchone {R : Type} (params : list Z)
    (c : Z -> R -> option bool) (t : table R) : result (option (Z * R)) :=
  match fetchone c t with
  | Some kr => Return (Some kr)
  | None =>
      if forallb bindable params then Return None else Raise OverflowError
  end.

(** [SELECT ... WHERE c] then [fetchall()]. *)
Definition fetchall {R : Type} (c : Z -> R -> option bool) (t : table R)
  : list (Z * R) :=
  List.filter (fun kr => holds (c kr.1 kr.2)) (scan t).

(** Binding a Python float to a REAL parameter: SQLite stores a NaN as
    NULL. *)
Definition bind_real (x : float) : option float :=
  if PrimFloat.is_nan x then None else Some x.

(** Binding a Python bool to an INTEGER parameter. *)
Definition bind_bool (b : bool) : option Z := Some (if b then 1 else 0).

(** [SUM(col)] over REAL values: NULLs are skipped, the total is NULL
    when nothing is left, else the values are accumulated in double
    precision in scan order; SQLite has no NaN, and a total that is not
    a number (an infinity met by the opposite one) comes out as NULL.
    (SQLite 3.44 and later carry a compensation term along, which can
    change the last bits of a total and never the rows that enter it.) *)
Definition sum (col : list (option float)) : option float :=
  match omap id col with
  | [] => None
  | x :: xs =>
      let total := fold_left PrimFloat.add (x :: xs) 0%float in
      if PrimFloat.is_nan total then None else Some total
  end.

(** [COALESCE(v, 0)]: the REAL [v], or the INTEGER 0 when [v] is NULL. *)
Definition coalesce0 (v : option float) : number :=
  match v with
  | Some x => Float x
  | None => Int 0
  end.

(** [strftime('%m', v)] and [strftime('%Y', v)]: NULL when [v] is NULL or
    no time value, else the month as two digits, the year as four. *)
Definition strftime_m `{Runtime} (v : option string) : option string :=
  match v ≫= sqlite_date with
  | Some (_, m, _) => Some (format_0d 2 m)
  | None => None
  end.

Definition strftime_Y `{Runtime} (v : option string) : option string :=
  match v ≫= sqlite_date with
  | Some (y, _, _) => Some (format_0d 4 y)
  | None => None
  end.

End Sql.

(** [float(v)] of what a COALESCE'd aggregate returns. *)
Definition py_float (v : number) : float :=
  match v with
  | Int n => float_of_int n
  | Float x => x
  end.

(** ** The schema of [Database.init_db]

    One row type per table, a column that is [NOT NULL] holding a value
    and any other column an [option].  The [id] column is the rowid, the
    key of the table.  Each [insert] is the INSERT statement the code
    issues: it takes what the code binds, checks the NOT NULL (and
    UNIQUE) constraints, and fills the columns the statement leaves out
    with their DEFAULT; [now_text] is CURRENT_TIMESTAMP as SQLite
    renders it.  Foreign keys are not enforced: the connection never
    turns them on. *)

Module users.
Record row : Type := mk_row {
  username : string;
  email : string;
  password_hash : string;
  full_name : string;
  phone : option string;
  created_at : option string;
  active : option Z;
  trial_start_date : option string;
  trial_end_date : option string;
  subscription_plan : option string;
  subscription_status : option string;
  subscription_end_date : option string
}.

(** UNIQUE on [username] and on [email]. *)
Definition taken (username_ email_ : string) (t : Sql.table row) : bool :=
  existsb (fun kr => bool_decide (username kr.2 = username_)
                     || bool_decide (email kr.2 = email_))
          (Sql.scan t).

(** INSERT INTO users (username, email, password_hash, full_name, phone,
    trial_end_date) VALUES (?, ?, ?, ?, ?, ?) *)
Definition insert (now_text : string)
    (username_ email_ password_hash_ full_name_ : string)
    (phone_ trial_end_date_ : option string) (t : Sql.table row)
  : result (Sql.table row * Z) :=
  if taken username_ email_ t then Raise IntegrityError
  else Return (Sql.insert
    {| username := username_; email := email_;
       password_hash := password_hash_; full_name := full_name_;
       phone := phone_; created_at := Some now_text; active := Some 1;
       trial_start_date := Some now_text;
       trial_end_date := trial_end_date_;
       subscription_plan := Some "trial";
       subscription_status := Some "trial";
       subscription_end_date := None |} t).
End users.

Module transactions.
Record row : Type := mk_row {
  user_id : Z;
  description : string;
  amount : float;
  transaction_type : string;
  category : option string;
  date : option string;
  created_at : option string;
  is_recurring : option Z;
  recurrence_type : option string;
  account_id : option Z
}.

(** INSERT INTO transactions (user_id, description, amount,
    transaction_type, category, date, is_recurring, recurrence_type,
    account_id) VALUES (?, ?, ?, ?, ?, ?, ?, ?, ?) *)
Definition insert (now_text : string) (user_id_ : option Z)
    (description_ : option string) (amount_ : option float)
    (transaction_type_ category_ date_ : option string)
    (is_recurring_ : option Z) (recurrence_type_ : option string)
    (account_id_ : option Z) (t : Sql.table row)
  : result (Sql.table row * Z) :=
  match user_id_, description_, amount_, transaction_type_ with
  | Some u, Some d, Some a, Some ty =>
      Return (Sql.insert
        {| user_id := u; description := d; amount := a;
           transaction_type := ty; category := category_; date := date_;
           created_at := Some now_text; is_recurring := is_recurring_;
           recurrence_type := recurrence_type_;
           account_id := account_id_ |} t)
  | _, _, _, _ => Raise IntegrityError
  end.

(** UPDATE transactions SET description=?, amount=?, transaction_type=?,
    category=?, date=?, is_recurring=?, recurrence_type=?, account_id=?
    WHERE id=?  -- the constraints are checked on the rows it touches. *)
Definition update (description_ : option string) (amount_ : option float)
    (transaction_type_ category_ date_ : option string)
    (is_recurring_ : option Z) (recurrence_type_ : option string)
    (account_id_ : option Z) (id_ : Z) (t : Sql.table row)
  : result (Sql.table row) :=
  match Sql.rows t !! id_ with
  | None => Return t
  | Some _ =>
      match description_, amount_, transaction_type_ with
      | Some d, Some a, Some ty =>
          Return (Sql.update id_ (fun r =>
            {| user_id := user_id r; description := d; amount := a;
               transaction_type := ty; category := category_;
               date := date_; created_at := created_at r;
               is_recurring := is_recurring_;
               recurrence_type := recurrence_type_;
               account_id := account_id_ |}) t)
      | _, _, _ => Raise IntegrityError
      end
  end.
End transactions.

Module accounts.
Record row : Type := mk_row {
  user_id : Z;
  name : string;
  account_type : string;
  amount : option float;
  due_date : option string;
  status : option string;
  created_at : option string
}.

(** INSERT INTO accounts (user_id, name, account_type, amount, due_date,
    status) VALUES (?, ?, ?, ?, ?, ?) *)
Definition insert (now_text : string) (user_id_ : option Z)
    (name_ account_type_ : option string) (amount_ : option float)
    (due_date_ status_ : option string) (t : Sql.table row)
  : result (Sql.table row * Z) :=
  match user_id_, name_, account_type_ with
  | Some u, Some n, Some ty =>
      Return (Sql.insert
        {| user_id := u; name := n; account_type := ty;
           amount := amount_; due_date := due_date_; status := status_;
           created_at := Some now_text |} t)
  | _, _, _ => Raise IntegrityError
  end.

(** UPDATE accounts SET name=?, account_type=?, amount=?, due_date=?,
    status=? WHERE id=? *)
Definition update (name_ account_type_ : option string)
    (amount_ : option float) (due_date_ status_ : option string)
    (id_ : Z) (t : Sql.table row) : result (Sql.table row) :=
  match Sql.rows t !! id_ with
  | None => Return t
  | Some _ =>
      match name_, account_type_ with
      | Some n, Some ty =>
          Return (Sql.update id_ (fun r =>
            {| user_id := user_id r; name := n; account_type := ty;
               amount := amount_; due_date := due_date_;
               status := status_; created_at := created_at r |}) t)
      | _, _ => Raise IntegrityError
      end
  end.
End accounts.

Module financial_goals.
Record row : Type := mk_row {
  user_id : Z;
  title : string;
  target_amount : float;
  current_amount : option float;
  target_date : option string;
  created_at : option string;
  is_completed : option Z
}.

(** INSERT INTO financial_goals (user_id, title, target_amount,
    current_amount, target_date, is_completed) VALUES (?, ?, ?, ?, ?, ?) *)
Definition insert (now_text : string) (user_id_ : option Z)
    (title_ : option string) (target_amount_ current_amount_ : option float)
    (target_date_ : option string) (is_completed_ : option Z)
    (t : Sql.table row) : result (Sql.table row * Z) :=
  match user_id_, title_, target_amount_ with
  | Some u, Some ti, Some ta =>
      Return (Sql.insert
        {| user_id := u; title := ti; target_amount := ta;
           current_amount := current_amount_;
           target_date := target_date_; created_at := Some now_text;
           is_completed := is_completed_ |} t)
  | _, _, _ => Raise IntegrityError
  end.

(** UPDATE financial_goals SET title=?, target_amount=?,
    current_amount=?, target_date=?, is_completed=? WHERE id=? *)
Definition update (title_ : option string)
    (target_amount_ current_amount_ : option float)
    (target_date_ : option string) (is_completed_ : option Z)
    (id_ : Z) (t : Sql.table row) : result (Sql.table row) :=
  match Sql.rows t !! id_ with
  | None => Return t
  | Some _ =>
      match title_, target_amount_ with
      | Some ti, Some ta =>
          Return (Sql.update id_ (fun r =>
            {| user_id := user_id r; title := ti; target_amount := ta;
               current_amount := current_amount_;
               target_date := target_date_; created_at := created_at r;
               is_completed := is_completed_ |}) t)
      | _, _ => Raise IntegrityError
      end
  end.
End financial_goals.

(** The database file: the four tables. *)
Record database : Type := mk_database {
  db_users : Sql.table users.row;
  db_transactions : Sql.table transactions.row;
  db_accounts : Sql.table accounts.row;
  db_financial_goals : Sql.table financial_goals.row
}.

Definition empty_database : database :=
  mk_database Sql.empty_table Sql.empty_table Sql.empty_table Sql.empty_table.

Definition with_users (d : database) (t : Sql.table users.row) : database :=
  mk_database t (db_transactions d) (db_accounts d) (db_financial_goals d).
Definition with_transactions (d : database) (t : Sql.table transactions.row)
  : database :=
  mk_database (db_users d) t (db_accounts d) (db_financial_goals d).
Definition with_accounts (d : database) (t : Sql.table accounts.row)
  : database :=
  mk_database (db_users d) (db_transactions d) t (db_financial_goals d).
Definition with_financial_goals (d : database)
    (t : Sql.table financial_goals.row) : database :=
  mk_database (db_users d) (db_transactions d) (db_accounts d) t.


(** [if x:] on an optional int: [None] and 0 are falsy.  [nonzero x] is
    the int when the test passes. *)
Definition nonzero (x : option Z) : option Z :=
  match x with
  | Some n => if n =? 0 then None else Some n
  | None => None
  end.

(** ** class User *)

(** One entry of the [features] dict of [get_plan_features]. *)
Record plan_features : Type := mk_plan_features {
  name : string;
  transactions_limit : Z;
  reports : bool;
  automation : bool;
  multi_user : bool
}.

Global Instance plan_features_inhabited : Inhabited plan_features :=
  populate (mk_plan_features "" 0 false false false).

Module User.

Record t : Type := mk {
  id : option Z;
  username : option string;
  email : option string;
  password_hash : option string;
  full_name : option string;
  phone : option string;
  created_at : option string;
  active : bool;
  trial_start_date : option string;
  trial_end_date : option string;
  subscription_plan : string;
  subscription_status : string;
  subscription_end_date : option string
}.

Definition __init__ (id_ : option Z)
    (username_ email_ password_hash_ full_name_ phone_ created_at_
       : option string)
    (active_ : option Z)
    (trial_start_date_ trial_end_date_ subscription_plan_
       subscription_status_ subscription_end_date_ : option string) : t :=
  {| id := id_; username := username_; email := email_;
     password_hash := password_hash_; full_name := full_name_;
     phone := phone_; created_at := created_at_;
     active := match active_ with
               | Some n => negb (n =? 0)
               | None => true
               end;
     trial_start_date := trial_start_date_;
     trial_end_date := trial_end_date_;
     subscription_plan := str_or subscription_plan_ "trial";
     subscription_status := str_or subscription_status_ "trial";
     subscription_end_date := subscription_end_date_ |}.

(** The record built from a fetched row: the class applied to [dict(row)]. *)
Definition of_row (k : Z) (r : users.row) : t :=
  __init__ (Some k) (Some (users.username r)) (Some (users.email r))
    (Some (users.password_hash r)) (Some (users.full_name r))
    (users.phone r) (users.created_at r) (users.active r)
    (users.trial_start_date r) (users.trial_end_date r)
    (users.subscription_plan r) (users.subscription_status r)
    (users.subscription_end_date r).

Section methods.
Context `{Runtime}.

(** [datetime.fromisoformat(s.replace('Z', '+00:00'))] *)
Definition parse_timestamp (s : string) : result datetime :=
  match fromisoformat (replace "Z" "+00:00" s) with
  | Some d => Return d
  | None => Raise ValueError
  end.

(** [utcnow] is the reading of [datetime.utcnow()] during the call. *)
Definition is_trial_expired (utcnow : Z) (self : t) : result bool :=
  match trial_end_date self with
  | None => Return false
  | Some EmptyString => Return false
  | Some s =>
      trial_end ← parse_timestamp s;
      dt_gt (naive utcnow) trial_end
  end.

Definition is_subscription_active (utcnow : Z) (self : t) : result value :=
  if bool_decide (subscription_status self = "trial") then
    expired ← is_trial_expired utcnow self;
    Return (Bool (negb expired))
  else
    (* a and b and c: the first falsy operand, else the last one *)
    if negb (bool_decide (subscription_status self = "active")) then
      Return (Bool false)
    else
      match subscription_end_date self with
      | None => Return None_
      | Some EmptyString => Return (Str EmptyString)
      | Some s =>
          subscription_end ← parse_timestamp s;
          b ← dt_le (naive utcnow) subscription_end;
          Return (Bool b)
      end.

End methods.

Definition features : gmap string plan_features :=
  <[ "trial" := {| name := "Teste Grátis"; transactions_limit := 10;
                   reports := false; automation := false;
                   multi_user := false |} ]>
  (<[ "mei" := {| name := "Plano MEI"; transactions_limit := 100;
                  reports := true; automation := false;
                  multi_user := false |} ]>
  (<[ "professional" := {| name := "Plano Profissional";
                           transactions_limit := 500; reports := true;
                           automation := true; multi_user := false |} ]>
  (<[ "enterprise" := {| name := "Plano Empresarial";
                         transactions_limit := -1; reports := true;
                         automation := true; multi_user := true |} ]>
   ∅))).

(** [features.get(self.subscription_plan, features['trial'])] *)
Definition get_plan_features (self : t) : plan_features :=
  default (features !!! "trial") (features !! subscription_plan self).

Definition get_by_id (user_id : Z) (d : database) : result (option t) :=
  row ← Sql.execute_fetchone [user_id]
          (fun k _ => Sql.eq (Some k) (Some user_id)) (db_users d);
  match row with
  | Some (k, r) => Return (Some (of_row k r))
  | None => Return None
  end.

Definition get_by_email (email_ : string) (d : database)
  : result (option t) :=
  match Sql.fetchone (fun _ r => Sql.eq (Some (users.email r)) (Some email_))
                     (db_users d) with
  | Some (k, r) => Return (Some (of_row k r))
  | None => Return None
  end.

Definition get_by_username (username_ : string) (d : database)
  : result (option t) :=
  match Sql.fetchone
          (fun _ r => Sql.eq (Some (users.username r)) (Some username_))
          (db_users d) with
  | Some (k, r) => Return (Some (of_row k r))
  | None => Return None
  end.

(** [utcnow] is the clock reading taken by [create], [now_text] the
    store's CURRENT_TIMESTAMP when the row is inserted, [salt] what
    [generate_password_hash] draws. *)
Definition create `{Runtime} (utcnow : Z) (now_text salt : string)
    (username_ email_ password full_name_ : string) (phone_ : option string)
    (d : database) : result (database * option t) :=
  let trial_end := isoformat (wall (dt_add (naive utcnow) (timedelta_days 7))) in
  let password_hash_ := generate_password_hash salt password in
  '(tbl, user_id) ← users.insert now_text username_ email_ password_hash_
                      full_name_ phone_ (Some trial_end) (db_users d);
  let d' := with_users d tbl in
  u ← get_by_id user_id d';
  Return (d', u).

(** What Flask-Login asks of a user object. *)
Definition is_authenticated (self : t) : bool := true.

Definition is_active (self : t) : bool := active self.

Definition is_anonymous (self : t) : bool := false.

(** [str(self.id)]; [str(None)] is ['None']. *)
Definition get_id (self : t) : string :=
  match id self with
  | Some n => py_str n
  | None => "None"
  end.

End User.


(** ** class Transaction *)

Module Transaction.

Record t : Type := mk {
  id : option Z;
  user_id : option Z;
  description : option string;
  amount : float;
  transaction_type : option string;
  category : option string;
  date : option string;
  created_at : option string;
  is_recurring : bool;
  recurrence_type : option string;
  account_id : option Z
}.

Definition __init__ (id_ user_id_ : option Z) (description_ : option string)
    (amount_ : option float)
    (transaction_type_ category_ date_ created_at_ : option string)
    (is_recurring_ : option Z) (recurrence_type_ : option string)
    (account_id_ : option Z) : t :=
  {| id := id_; user_id := user_id_; description := description_;
     amount := float_or_zero amount_;
     transaction_type := transaction_type_; category := category_;
     date := date_; created_at := created_at_;
     is_recurring := bool_or_false is_recurring_;
     recurrence_type := recurrence_type_; account_id := account_id_ |}.

(** The record built from a fetched row: the class applied to [dict(row)]. *)
Definition of_row (k : Z) (r : transactions.row) : t :=
  __init__ (Some k) (Some (transactions.user_id r))
    (Some (transactions.description r)) (Some (transactions.amount r))
    (Some (transactions.transaction_type r)) (transactions.category r)
    (transactions.date r) (transactions.created_at r)
    (transactions.is_recurring r) (transactions.recurrence_type r)
    (transactions.account_id r).

(** [self.id = k] *)
Definition set_id (self : t) (k : Z) : t :=
  {| id := Some k; user_id := user_id self; description := description self;
     amount := amount self; transaction_type := transaction_type self;
     category := category self; date := date self;
     created_at := created_at self; is_recurring := is_recurring self;
     recurrence_type := recurrence_type self;
     account_id := account_id self |}.

(** Returns the database after the commit and [self] as the call leaves
    it. *)
Definition save (now_text : string) (self : t) (d : database)
  : result (database * t) :=
  match nonzero (id self) with
  | Some k =>
    (* Update existing *)
    tbl ← transactions.update (description self) (Sql.bind_real (amount self))
            (transaction_type self) (category self) (date self)
            (Sql.bind_bool (is_recurring self)) (recurrence_type self)
            (account_id self) k (db_transactions d);
    Return (with_transactions d tbl, self)
  | None =>
    (* Create new *)
    '(tbl, lastrowid) ← transactions.insert now_text (user_id self)
            (description self) (Sql.bind_real (amount self))
            (transaction_type self) (category self) (date self)
            (Sql.bind_bool (is_recurring self)) (recurrence_type self)
            (account_id self) (db_transactions d);
    Return (with_transactions d tbl, set_id self lastrowid)
  end.

Section aggregates.
Context `{Runtime}.

(** WHERE user_id = ? AND transaction_type = <ty> AND
    strftime('%m', date) = ? AND strftime('%Y', date) = ? *)
Definition monthly_where (user_id_ : Z) (ty mm yyyy : string)
    (r : transactions.row) : option bool :=
  Sql.and (Sql.eq (Some (transactions.user_id r)) (Some user_id_))
 (Sql.and (Sql.eq (Some (transactions.transaction_type r)) (Some ty))
 (Sql.and (Sql.eq (Sql.strftime_m (transactions.date r)) (Some mm))
          (Sql.eq (Sql.strftime_Y (transactions.date r)) (Some yyyy)))).

(** SELECT COALESCE(SUM(amount), 0) FROM transactions WHERE ... *)
Definition monthly_total (user_id_ : Z) (ty mm yyyy : string) (d : database)
  : number :=
  Sql.coalesce0 (Sql.sum
    (map (fun kr => Some (transactions.amount kr.2))
         (Sql.fetchall (fun _ r => monthly_where user_id_ ty mm yyyy r)
                       (db_transactions d)))).

Definition get_monthly_summary (user_id_ month year : Z) (d : database)
  : result (float * float) :=
  let income :=
    monthly_total user_id_ "income" (format_0d 2 month) (py_str year) d in
  let expenses :=
    monthly_total user_id_ "expense" (format_0d 2 month) (py_str year) d in
  Return (py_float income, py_float expenses).

End aggregates.

(** SELECT COUNT of the rows FROM transactions WHERE user_id = ? *)
Definition count_by_user_id (user_id_ : Z) (d : database) : result Z :=
  let count :=
    Z.of_nat (length
      (Sql.fetchall
         (fun _ r => Sql.eq (Some (transactions.user_id r)) (Some user_id_))
         (db_transactions d))) in
  Return count.

Section ordered.

(** [get_by_user_id] splices its [order_by] argument into the statement
    as text, so what the clause means is SQLite's business:
    [order_rows order_by l] is the selected rows [l] (given in rowid
    order) as SQLite hands them over under [ORDER BY order_by]. *)
Variable order_rows :
  string -> list (Z * transactions.row) -> list (Z * transactions.row).

(** [limit] is spliced in the same way when it is truthy; SQLite reads a
    negative LIMIT as no limit. *)
Definition get_by_user_id (user_id_ : Z) (limit : option Z)
    (order_by : string) (d : database) : result (list t) :=
  let ordered :=
    order_rows order_by
      (Sql.fetchall
         (fun _ r => Sql.eq (Some (transactions.user_id r)) (Some user_id_))
         (db_transactions d)) in
  let rows :=
    match nonzero limit with
    | Some n => if n <? 0 then ordered else take (Z.to_nat n) ordered
    | None => ordered
    end in
  Return (map (fun kr => of_row kr.1 kr.2) rows).

End ordered.

End Transaction.

(** ** class Account *)

Module Account.

Record t : Type := mk {
  id : option Z;
  user_id : option Z;
  name : option string;
  account_type : option string;
  amount : float;
  due_date : option string;
  status : string;
  created_at : option string
}.

Definition __init__ (id_ user_id_ : option Z)
    (name_ account_type_ : option string) (amount_ : option float)
    (due_date_ status_ created_at_ : option string) : t :=
  {| id := id_; user_id := user_id_; name := name_;
     account_type := account_type_; amount := float_or_zero amount_;
     due_date := due_date_; status := str_or status_ "pending";
     created_at := created_at_ |}.

(** The record built from a fetched row: the class applied to [dict(row)]. *)
Definition of_row (k : Z) (r : accounts.row) : t :=
  __init__ (Some k) (Some (accounts.user_id r)) (Some (accounts.name r))
    (Some (accounts.account_type r)) (accounts.amount r)
    (accounts.due_date r) (accounts.status r) (accounts.created_at r).

(** [self.id = k] *)
Definition set_id (self : t) (k : Z) : t :=
  {| id := Some k; user_id := user_id self; name := name self;
     account_type := account_type self; amount := amount self;
     due_date := due_date self; status := status self;
     created_at := created_at self |}.

Definition save (now_text : string) (self : t) (d : database)
  : result (database * t) :=
  match nonzero (id self) with
  | Some k =>
    (* Update existing *)
    tbl ← accounts.update (name self) (account_type self)
            (Sql.bind_real (amount self)) (due_date self)
            (Some (status self)) k (db_accounts d);
    Return (with_accounts d tbl, self)
  | None =>
    (* Create new *)
    '(tbl, lastrowid) ← accounts.insert now_text (user_id self) (name self)
            (account_type self) (Sql.bind_real (amount self))
            (due_date self) (Some (status self)) (db_accounts d);
    Return (with_accounts d tbl, set_id self lastrowid)
  end.

Definition get_by_id (account_id : Z) (user_id_ : option Z) (d : database)
  : result (option t) :=
  row ←
    match nonzero user_id_ with
    | Some u =>
      Sql.execute_fetchone [account_id; u] (fun k r =>
          Sql.and (Sql.eq (Some k) (Some account_id))
                  (Sql.eq (Some (accounts.user_id r)) (Some u)))
        (db_accounts d)
    | None =>
      Sql.execute_fetchone [account_id]
        (fun k _ => Sql.eq (Some k) (Some account_id)) (db_accounts d)
    end;
  match row with
  | Some (k, r) => Return (Some (of_row k r))
  | None => Return None
  end.

(** WHERE user_id = ? AND account_type = ? AND status = 'pending' *)
Definition pending_where (user_id_ : Z) (account_type_ : string)
    (r : accounts.row) : option bool :=
  Sql.and (Sql.eq (Some (accounts.user_id r)) (Some user_id_))
 (Sql.and (Sql.eq (Some (accounts.account_type r)) (Some account_type_))
          (Sql.eq (accounts.status r) (Some "pending"))).

Definition get_pending_total (user_id_ : Z) (account_type_ : string)
    (d : database) : result float :=
  let total :=
    Sql.coalesce0 (Sql.sum
      (map (fun kr => accounts.amount kr.2)
           (Sql.fetchall (fun _ r => pending_where user_id_ account_type_ r)
                         (db_accounts d)))) in
  Return (py_float total).

Definition get_by_user_id (user_id_ : Z) (account_type_ : option string)
    (d : database) : result (list t) :=
  let rows :=
    match account_type_ with
    | Some (String a s) =>
      Sql.fetchall (fun _ r =>
          Sql.and (Sql.eq (Some (accounts.user_id r)) (Some user_id_))
                  (Sql.eq (Some (accounts.account_type r))
                          (Some (String a s))))
        (db_accounts d)
    | _ =>
      Sql.fetchall
        (fun _ r => Sql.eq (Some (accounts.user_id r)) (Some user_id_))
        (db_accounts d)
    end in
  Return (map (fun kr => of_row kr.1 kr.2) rows).

End Account.

(** ** class FinancialGoal *)

Module FinancialGoal.

Record t : Type := mk {
  id : option Z;
  user_id : option Z;
  title : option string;
  target_amount : float;
  current_amount : float;
  target_date : option string;
  created_at : option string;
  is_completed : bool
}.

Definition __init__ (id_ user_id_ : option Z) (title_ : option string)
    (target_amount_ current_amount_ : option float)
    (target_date_ created_at_ : option string) (is_completed_ : option Z)
  : t :=
  {| id := id_; user_id := user_id_; title := title_;
     target_amount := float_or_zero target_amount_;
     current_amount := float_or_zero current_amount_;
     target_date := target_date_; created_at := created_at_;
     is_completed := bool_or_false is_completed_ |}.

(** The record built from a fetched row: the class applied to [dict(row)]. *)
Definition of_row (k : Z) (r : financial_goals.row) : t :=
  __init__ (Some k) (Some (financial_goals.user_id r))
    (Some (financial_goals.title r))
    (Some (financial_goals.target_amount r))
    (financial_goals.current_amount r) (financial_goals.target_date r)
    (financial_goals.created_at r) (financial_goals.is_completed r).

(** [self.id = k] *)
Definition set_id (self : t) (k : Z) : t :=
  {| id := Some k; user_id := user_id self; title := title self;
     target_amount := target_amount self;
     current_amount := current_amount self;
     target_date := target_date self; created_at := created_at self;
     is_completed := is_completed self |}.

Definition get_progress_percentage (self : t) : result number :=
  if PrimFloat.eqb (target_amount self) (float_of_int 0) then Return (Int 0)
  else
    q ← truediv (current_amount self) (target_amount self);
    Return (py_min (Int 100) (Float (PrimFloat.mul q (float_of_int 100)))).

Definition save (now_text : string) (self : t) (d : database)
  : result (database * t) :=
  match nonzero (id self) with
  | Some k =>
    (* Update existing *)
    tbl ← financial_goals.update (title self)
            (Sql.bind_real (target_amount self))
            (Sql.bind_real (current_amount self)) (target_date self)
            (Sql.bind_bool (is_completed self)) k
            (db_financial_goals d);
    Return (with_financial_goals d tbl, self)
  | None =>
    (* Create new *)
    '(tbl, lastrowid) ← financial_goals.insert now_text (user_id self)
            (title self) (Sql.bind_real (target_amount self))
            (Sql.bind_real (current_amount self)) (target_date self)
            (Sql.bind_bool (is_completed self)) (db_financial_goals d);
    Return (with_financial_goals d tbl, set_id self lastrowid)
  end.

(** [is_completed] is a Python bool or [None]; the bool is bound as 0
    or 1. *)
Definition get_by_user_id (user_id_ : Z) (is_completed_ : option bool)
    (d : database) : result (list t) :=
  let rows :=
    match is_completed_ with
    | Some b =>
      Sql.fetchall (fun _ r =>
          Sql.and (Sql.eq (Some (financial_goals.user_id r)) (Some user_id_))
                  (Sql.eq (financial_goals.is_completed r) (Sql.bind_bool b)))
        (db_financial_goals d)
    | None =>
      Sql.fetchall
        (fun _ r => Sql.eq (Some (financial_goals.user_id r)) (Some user_id_))
        (db_financial_goals d)
    end in
  Return (map (fun kr => of_row kr.1 kr.2) rows).

End FinancialGoal.


(** ** A reference runtime

    An instance of [Runtime] to evaluate the code with.  It reads and
    writes the layout [isoformat()] itself produces,
    [YYYY-MM-DD], [YYYY-MM-DDTHH:MM:SS], an optional [.fff] or [.ffffff]
    and an optional [+HH:MM] or [-HH:MM]; SQLite's reading covers
    [YYYY-MM-DD] alone or followed by a time of day.  Days are counted in
    the proleptic Gregorian calendar from 1970-01-01. *)

Module Reference.

Definition is_leap (y : Z) : bool :=
  (y mod 4 =? 0) && (negb (y mod 100 =? 0) || (y mod 400 =? 0)).

Definition days_in_month (y m : Z) : Z :=
  if m =? 2 then (if is_leap y then 29 else 28)
  else if (m =? 4) || (m =? 6) || (m =? 9) || (m =? 11) then 30
  else 31.

Definition days_from_civil (y m d : Z) : Z :=
  let y' := if m <=? 2 then y - 1 else y in
  let era := y' / 400 in
  let yoe := y' - era * 400 in
  let mp := if 2 <? m then m - 3 else m + 9 in
  let doy := (153 * mp + 2) / 5 + d - 1 in
  let doe := yoe * 365 + yoe / 4 - yoe / 100 + doy in
  era * 146097 + doe - 719468.

Definition civil_from_days (z : Z) : Z * Z * Z :=
  let z' := z + 719468 in
  let era := z' / 146097 in
  let doe := z' - era * 146097 in
  let yoe := (doe - doe / 1460 + doe / 36524 - doe / 146096) / 365 in
  let doy := doe - (365 * yoe + yoe / 4 - yoe / 100) in
  let mp := (5 * doy + 2) / 153 in
  let d := doy - (153 * mp + 2) / 5 + 1 in
  let m := if mp <? 10 then mp + 3 else mp - 9 in
  let y := yoe + era * 400 in
  (if m <=? 2 then y + 1 else y, m, d).

Definition microseconds_per_day : Z := 86400 * 1000000.

Definition isoformat (t : Z) : string :=
  let '(y, m, d) := civil_from_days (t / microseconds_per_day) in
  let us_of_day := t mod microseconds_per_day in
  let secs := us_of_day / 1000000 in
  let us := us_of_day mod 1000000 in
  format_0d 4 y +:+ "-" +:+ format_0d 2 m +:+ "-" +:+ format_0d 2 d
  +:+ "T" +:+ format_0d 2 (secs / 3600) +:+ ":"
  +:+ format_0d 2 (secs / 60 mod 60) +:+ ":" +:+ format_0d 2 (secs mod 60)
  +:+ (if us =? 0 then "" else "." +:+ format_0d 6 us).

Definition digit (c : ascii) : option Z :=
  let n := Z.of_N (N_of_ascii c) in
  if (48 <=? n) && (n <=? 57) then Some (n - 48) else None.

Fixpoint digits (l : list ascii) (acc : Z) : option Z :=
  match l with
  | [] => Some acc
  | c :: r => d ← digit c; digits r (acc * 10 + d)
  end.

(** The [len] characters from position [from], read as a number. *)
Definition field (l : list ascii) (from len : nat) : option Z :=
  let s := take len (drop from l) in
  if bool_decide (length s = len) then digits s 0 else None.

Definition char_is (l : list ascii) (i : nat) (c : ascii) : bool :=
  match l !! i with
  | Some a => Ascii.eqb a c
  | None => false
  end.

Definition guard_ (b : bool) : option unit := if b then Some tt else None.

(** [YYYY-MM-DD] at the head of [l], as a valid day. *)
Definition read_date (min_year : Z) (l : list ascii) : option (Z * Z * Z) :=
  y ← field l 0 4;
  m ← field l 5 2;
  d ← field l 8 2;
  _ ← guard_ (char_is l 4 "-" && char_is l 7 "-");
  _ ← guard_ ((min_year <=? y) && (1 <=? m) && (m <=? 12)
              && (1 <=? d) && (d <=? days_in_month y m));
  Some (y, m, d).

(** [HH:MM:SS] at the head of [l], in seconds. *)
Definition read_time (l : list ascii) : option Z :=
  h ← field l 0 2;
  m ← field l 3 2;
  s ← field l 6 2;
  _ ← guard_ (char_is l 2 ":" && char_is l 5 ":");
  _ ← guard_ ((h <? 24) && (m <? 60) && (s <? 60));
  Some (h * 3600 + m * 60 + s).

(** [.fff] or [.ffffff] at the head of [l]: the microseconds and what
    follows. *)
Definition read_fraction (l : list ascii) : option (Z * list ascii) :=
  if char_is l 0 "." then
    match field l 1 6 with
    | Some us => Some (us, drop 7 l)
    | None => ms ← field l 1 3; Some (ms * 1000, drop 4 l)
    end
  else Some (0, l).

(** Nothing, or [+HH:MM] / [-HH:MM] and nothing after it. *)
Definition read_offset (l : list ascii) : option (option Z) :=
  match l with
  | [] => Some None
  | sign :: r =>
      h ← field r 0 2;
      m ← field r 3 2;
      _ ← guard_ (char_is r 2 ":" && bool_decide (length r = 5%nat)
                  && (h <? 24) && (m <? 60));
      let off := (h * 3600 + m * 60) * 1000000 in
      if Ascii.eqb sign "+" then Some (Some off)
      else if Ascii.eqb sign "-" then Some (Some (- off))
      else None
  end.

Definition fromisoformat (s : string) : option datetime :=
  let l := list_ascii_of_string s in
  '(y, m, d) ← read_date 1 l;
  let day := days_from_civil y m d * microseconds_per_day in
  match drop 10 l with
  | [] => Some (mk_datetime day None)
  | _ :: t =>
      secs ← read_time t;
      '(us, rest) ← read_fraction (drop 8 t);
      off ← read_offset rest;
      Some (mk_datetime (day + secs * 1000000 + us) off)
  end.

Definition sqlite_date (s : string) : option (Z * Z * Z) :=
  let l := list_ascii_of_string s in
  ymd ← read_date 0 l;
  match drop 10 l with
  | [] => Some ymd
  | sep :: t =>
      _ ← guard_ (Ascii.eqb sep " " || Ascii.eqb sep "T");
      _ ← read_time t;
      _ ← guard_ (bool_decide (length t = 8%nat));
      Some ymd
  end.

(** Stands in for the salted digest, which no property looks into. *)
Definition generate_password_hash (salt password : string) : string :=
  "pbkdf2:sha256$" +:+ salt +:+ "$" +:+ password.

End Reference.

Definition reference_runtime : Runtime :=
  {| fromisoformat := Reference.fromisoformat;
     isoformat := Reference.isoformat;
     generate_password_hash := Reference.generate_password_hash;
     sqlite_date := Reference.sqlite_date |}.

(** ** Vocabulary of the statements *)

(** The instant a stored timestamp stands for when the check can read it:
    the text is set and parses, after the ['Z'] replacement, to a naive
    datetime. *)
Definition naive_instant `{Runtime} (s : option string) : option Z :=
  match s with
  | Some (String a r) =>
      match fromisoformat (replace "Z" "+00:00" (String a r)) with
      | Some d =>
          match tzoffset d with
          | None => Some (wall d)
          | Some _ => None
          end
      | None => None
      end
  | _ => None
  end.

(** A stored timestamp is readable when it is absent ([None] or ['']) or
    stands for a naive instant. *)
Definition readable `{Runtime} (s : option string) : Prop :=
  truthy_str s = true -> is_Some (naive_instant s).

(** The ints the sqlite3 module binds to an INTEGER parameter: those of
    the signed 64-bit range. *)
Definition int64 (n : Z) : Prop := - 2 ^ 63 <= n < 2 ^ 63.

Global Instance int64_dec (n : Z) : Decision (int64 n).
Proof. unfold int64. apply _. Defined.

(** *** What [save] writes, per record class

    [insertable] and [updatable]: the attributes bound to NOT NULL
    columns are set (a NaN is bound as NULL).  [written self row]: the
    columns both statements set hold the record's attributes.  [created]:
    what only the INSERT sets.  [kept]: what the UPDATE leaves alone.
    [with_stored]: the record with the two attributes [save] does not own
    replaced by the stored ones.  [constructed]: the record is what the
    constructor builds from its own attributes. *)

Module TransactionSpec.
Import Transaction.

Definition updatable (self : t) : Prop :=
  is_Some (description self) /\ PrimFloat.is_nan (amount self) = false
  /\ is_Some (transaction_type self).

Definition insertable (self : t) : Prop :=
  is_Some (user_id self) /\ updatable self.

Definition written (self : t) (row : transactions.row) : Prop :=
  description self = Some (transactions.description row)
  /\ amount self = transactions.amount row
  /\ transaction_type self = Some (transactions.transaction_type row)
  /\ category self = transactions.category row
  /\ date self = transactions.date row
  /\ Sql.bind_bool (is_recurring self) = transactions.is_recurring row
  /\ recurrence_type self = transactions.recurrence_type row
  /\ account_id self = transactions.account_id row.

Definition created (now_text : string) (self : t) (row : transactions.row)
  : Prop :=
  user_id self = Some (transactions.user_id row)
  /\ transactions.created_at row = Some now_text.

Definition kept (old new : transactions.row) : Prop :=
  transactions.user_id new = transactions.user_id old
  /\ transactions.created_at new = transactions.created_at old.

Definition with_stored (self : t) (user_id_ : option Z)
    (created_at_ : option string) : t :=
  {| id := id self; user_id := user_id_; description := description self;
     amount := amount self; transaction_type := transaction_type self;
     category := category self; date := date self;
     created_at := created_at_; is_recurring := is_recurring self;
     recurrence_type := recurrence_type self;
     account_id := account_id self |}.

Definition constructed (self : t) : Prop :=
  self = __init__ (id self) (user_id self) (description self)
           (Some (amount self)) (transaction_type self) (category self)
           (date self) (created_at self)
           (Sql.bind_bool (is_recurring self)) (recurrence_type self)
           (account_id self).

(** No [get_by_id] exists for transactions: a reload is the record any
    fetch builds from the row under the key. *)
Definition reload (k : Z) (d : database) : result (option t) :=
  Return (of_row k <$> Sql.rows (db_transactions d) !! k).

End TransactionSpec.

Module AccountSpec.
Import Account.

Definition updatable (self : t) : Prop :=
  is_Some (name self) /\ is_Some (account_type self).

Definition insertable (self : t) : Prop :=
  is_Some (user_id self) /\ updatable self.

Definition written (self : t) (row : accounts.row) : Prop :=
  name self = Some (accounts.name row)
  /\ account_type self = Some (accounts.account_type row)
  /\ Sql.bind_real (amount self) = accounts.amount row
  /\ due_date self = accounts.due_date row
  /\ Some (status self) = accounts.status row.

Definition created (now_text : string) (self : t) (row : accounts.row)
  : Prop :=
  user_id self = Some (accounts.user_id row)
  /\ accounts.created_at row = Some now_text.

Definition kept (old new : accounts.row) : Prop :=
  accounts.user_id new = accounts.user_id old
  /\ accounts.created_at new = accounts.created_at old.

Definition with_stored (self : t) (user_id_ : option Z)
    (created_at_ : option string) : t :=
  {| id := id self; user_id := user_id_; name := name self;
     account_type := account_type self; amount := amount self;
     due_date := due_date self; status := status self;
     created_at := created_at_ |}.

Definition constructed (self : t) : Prop :=
  self = __init__ (id self) (user_id self) (name self) (account_type self)
           (Some (amount self)) (due_date self) (Some (status self))
           (created_at self).

(** A record that reloads as itself: built by the constructor, its
    amount a number (a NaN is stored as NULL and reloads as 0.0). *)
Definition faithful (self : t) : Prop :=
  constructed self /\ PrimFloat.is_nan (amount self) = false.

(** [Account.get_by_id(k)], without the user filter. *)
Definition reload (k : Z) (d : database) : result (option t) :=
  get_by_id k None d.

(** A reload under an identifier that has no row: no record, and
    OverflowError for an identifier the sqlite3 module does not bind. *)
Definition missing (k : Z) : result (option t) :=
  if decide (int64 k) then Return None else Raise OverflowError.

End AccountSpec.

Module FinancialGoalSpec.
Import FinancialGoal.

Definition updatable (self : t) : Prop :=
  is_Some (title self) /\ PrimFloat.is_nan (target_amount self) = false.

Definition insertable (self : t) : Prop :=
  is_Some (user_id self) /\ updatable self.

Definition written (self : t) (row : financial_goals.row) : Prop :=
  title self = Some (financial_goals.title row)
  /\ target_amount self = financial_goals.target_amount row
  /\ Sql.bind_real (current_amount self) = financial_goals.current_amount row
  /\ target_date self = financial_goals.target_date row
  /\ Sql.bind_bool (is_completed self) = financial_goals.is_completed row.

Definition created (now_text : string) (self : t)
    (row : financial_goals.row) : Prop :=
  user_id self = Some (financial_goals.user_id row)
  /\ financial_goals.created_at row = Some now_text.

Definition kept (old new : financial_goals.row) : Prop :=
  financial_goals.user_id new = financial_goals.user_id old
  /\ financial_goals.created_at new = financial_goals.created_at old.

Definition with_stored (self : t) (user_id_ : option Z)
    (created_at_ : option string) : t :=
  {| id := id self; user_id := user_id_; title := title self;
     target_amount := target_amount self;
     current_amount := current_amount self;
     target_date := target_date self; created_at := created_at_;
     is_completed := is_completed self |}.

Definition constructed (self : t) : Prop :=
  self = __init__ (id self) (user_id self) (title self)
           (Some (target_amount self)) (Some (current_amount self))
           (target_date self) (created_at self)
           (Sql.bind_bool (is_completed self)).

(** A record that reloads as itself: built by the constructor, its
    current amount a number (a NaN is stored as NULL and reloads as 0.0). *)
Definition faithful (self : t) : Prop :=
  constructed self /\ PrimFloat.is_nan (current_amount self) = false.

(** No [get_by_id] exists for goals: a reload is the record any fetch
    builds from the row under the key. *)
Definition reload (k : Z) (d : database) : result (option t) :=
  Return (of_row k <$> Sql.rows (db_financial_goals d) !! k).

End FinancialGoalSpec.

(** *** The contract of [save], for any record class *)

Section contracts.
Context {T Row : Type}.
Variables
  (save : string -> T -> database -> result (database * T))
  (table : database -> Sql.table Row)
  (with_table : database -> Sql.table Row -> database)
  (id : T -> option Z)
  (set_id : T -> Z -> T)
  (insertable updatable : T -> Prop)
  (written : T -> Row -> Prop)
  (created : string -> T -> Row -> Prop)
  (kept : Row -> Row -> Prop).



Variables
  (reload : Z -> database -> result (option T))
  (with_stored : T -> option Z -> option string -> T)
  (user_id : T -> option Z)
  (created_at : T -> option string)
  (row_user_id : Row -> Z)
  (row_created_at : Row -> option string)
  (faithful : T -> Prop)
  (missing : Z -> result (option T)).


End contracts.

(** *** What the aggregates range over *)


(** The stored date falls in the month and year, as SQLite reads it. *)
Definition falls_in `{Runtime} (month year : Z) (date : option string)
  : Prop :=
  match date ≫= sqlite_date with
  | Some (y, m, _) => m = month /\ y = year
  | None => False
  end.

Global Instance falls_in_dec `{Runtime} (month year : Z)
    (date : option string) : Decision (falls_in month year date).
Proof.
  unfold falls_in. destruct (date ≫= sqlite_date) as [[[y m] dd]|]; apply _.
Defined.






(** The tables holding the given rows, inserted in order. *)
Definition ledger (txs : list transactions.row) (accs : list accounts.row)
  : database :=
  with_accounts
    (with_transactions empty_database
       (foldl (fun t r => (Sql.insert r t).1) Sql.empty_table txs))
    (foldl (fun t r => (Sql.insert r t).1) Sql.empty_table accs).

(** *** Reading a formatted number back *)

(** The number a run of decimal digits writes, most significant first. *)
Fixpoint value_acc (acc : Z) (s : string) : Z :=
  match s with
  | EmptyString => acc
  | String c r => value_acc (acc * 10 + (Z.of_N (N_of_ascii c) - 48)) r
  end.

(** The number a signed, possibly zero-padded decimal text writes. *)
Definition decode (s : string) : Z :=
  match s with
  | EmptyString => 0
  | String c r => if Ascii.eqb c "-" then - value_acc 0 r else value_acc 0 s
  end.

(** ** Sample data for the concrete instances *)

(** A user as [User.get_by_id] builds it from a row, still on trial. *)
Definition sample_trial_user (trial_end : option string) : User.t :=
  User.__init__ (Some 1) (Some "ana") (Some "ana@example.com")
    (Some "pbkdf2:sha256$s$x") (Some "Ana Lima") None
    (Some "2024-03-01 12:00:00") (Some 1) (Some "2024-03-01 12:00:00")
    trial_end (Some "trial") (Some "trial") None.

(** A user on the professional plan with the given status and end date. *)
Definition sample_subscriber (status_ : string) (subscription_end : option string)
  : User.t :=
  User.__init__ (Some 2) (Some "rui") (Some "rui@example.com")
    (Some "pbkdf2:sha256$s$y") (Some "Rui Sá") None
    (Some "2023-01-10 09:00:00") (Some 1) (Some "2023-01-10 09:00:00")
    (Some "2023-01-17T09:00:00") (Some "professional") (Some status_)
    subscription_end.

(** 2024-03-15T10:30:00 on the naive UTC clock, in microseconds. *)
Definition sample_now : Z := 1710498600000000.

(** A payable of user 1 as the account form hands it to the class. *)
Definition sample_account : Account.t :=
  Account.__init__ None (Some 1) (Some "Aluguel") (Some "payable")
    (Some 1200%float) (Some "2024-04-05") None None.

(** CURRENT_TIMESTAMP at [sample_now]. *)
Definition sample_now_text : string := "2024-03-15 10:30:00".

Definition sample_tx (user_id_ : Z) (ty : string) (amount_ : float)
    (date_ : string) : transactions.row :=
  transactions.mk_row user_id_ "venda" amount_ ty (Some "vendas")
    (Some date_) (Some sample_now_text) (Some 0) None None.

Definition sample_acc (user_id_ : Z) (ty : string) (amount_ : float)
    (status_ : string) : accounts.row :=
  accounts.mk_row user_id_ "fornecedor" ty (Some amount_)
    (Some "2024-04-05") (Some status_) (Some sample_now_text).

(** Three rows of user 1 in March 2024, one in April, one of user 2. *)
Definition sample_ledger : database :=
  ledger
    [ sample_tx 1 "income" 100.5%float "2024-03-01";
      sample_tx 1 "expense" 50%float "2024-03-10 08:00:00";
      sample_tx 1 "income" 200%float "2024-03-31";
      sample_tx 1 "income" 999%float "2024-04-01";
      sample_tx 2 "income" 7%float "2024-03-15" ]
    [ sample_acc 1 "payable" 300%float "pending";
      sample_acc 1 "payable" 40%float "paid";
      sample_acc 1 "receivable" 75%float "pending";
      sample_acc 1 "payable" 12.5%float "pending";
      sample_acc 2 "payable" 1000%float "pending" ].


(** One income of user 1 dated in March of the year 999. *)
Definition year_999_ledger : database :=
  ledger [ sample_tx 1 "income" 100%float "0999-03-15" ] [].

(** *** Invariants of the store, repeated saves, orderings *)

(** The UNIQUE constraints of [users] hold: no two rows share a username
    or an email. *)
Definition users_unique (t : Sql.table users.row) : Prop :=
  forall k1 k2 r1 r2,
    Sql.rows t !! k1 = Some r1 -> Sql.rows t !! k2 = Some r2 ->
    users.username r1 = users.username r2 \/ users.email r1 = users.email r2 ->
    k1 = k2.

(** Saving what [save] returned changes nothing, neither in the store
    nor in the record, whenever it is done. *)
Definition save_idempotent {T : Type}
    (save : string -> T -> database -> result (database * T)) : Prop :=
  forall (now_text now_text' : string) (self saved : T) (d d' : database),
    save now_text self d = Return (d', saved) ->
    save now_text' saved d' = Return (d', saved).



(** The user whose row a [save] writes: the record's own on an insert,
    the stored row's on an update (the UPDATE leaves [user_id] alone),
    nobody's when the identifier has no row. *)
Definition written_user (id_ user_id_ : option Z) (stored : Z -> option Z)
  : option Z :=
  match nonzero id_ with
  | Some k => stored k
  | None => user_id_
  end.

(** *** More sample data *)

(** A users row as a registration at [sample_now] writes it. *)
Definition sample_user_row (username_ email_ : string) : users.row :=
  users.mk_row username_ email_ "pbkdf2:sha256$s$x" "Ana Lima" None
    (Some sample_now_text) (Some 1) (Some sample_now_text)
    (Some "2024-03-22T10:30:00") (Some "trial") (Some "trial") None.

(** Two registered users. *)
Definition sample_registry : database :=
  with_users empty_database
    (foldl (fun t r => (Sql.insert r t).1) Sql.empty_table
       [ sample_user_row "ana" "ana@example.com";
         sample_user_row "rui" "rui@example.com" ]).



(** * Properties *)

(** ** The store *)

Section store.
Context {R : Type}.
Implicit Types (t : Sql.table R) (m : gmap Z R) (k : Z) (r : R).

Lemma scan_lookup t k r :
  (k, r) ∈ Sql.scan t <-> Sql.rows t !! k = Some r.
Proof.
  unfold Sql.scan. rewrite merge_sort_Permutation.
  apply elem_of_map_to_list.
Qed.

Lemma max_rowid_bound m k r :
  m !! k = Some r -> k <= Sql.max_rowid m.
Proof.
  unfold Sql.max_rowid. revert k r.
  apply (map_fold_weak_ind
           (fun acc m => forall k r, m !! k = Some r -> k <= acc)).
  - intros k r Hk. rewrite lookup_empty in Hk. discriminate.
  - intros i x m' acc _ IH k r Hk.
    destruct (decide (i = k)) as [->|Hne].
    + lia.
    + rewrite lookup_insert_ne in Hk by done.
      specialize (IH k r Hk). lia.
Qed.

Lemma max_rowid_nonneg m : 0 <= Sql.max_rowid m.
Proof.
  unfold Sql.max_rowid.
  apply (map_fold_weak_ind (fun acc _ => 0 <= acc)); intros; lia.
Qed.

Lemma next_rowid_fresh t : Sql.rows t !! Sql.next_rowid t = None.
Proof.
  destruct (Sql.rows t !! Sql.next_rowid t) as [r|] eqn:E; [|done].
  apply max_rowid_bound in E. unfold Sql.next_rowid in E. lia.
Qed.

Lemma next_rowid_nonzero t : Sql.next_rowid t <> 0.
Proof.
  unfold Sql.next_rowid. pose proof (max_rowid_nonneg (Sql.rows t)). lia.
Qed.

Lemma fetchone_Some (c : Z -> R -> option bool) t k r :
  Sql.fetchone c t = Some (k, r) ->
  Sql.rows t !! k = Some r /\ c k r = Some true.
Proof.
  unfold Sql.fetchone. intros Hf. apply find_some in Hf as [Hin Hc].
  split.
  - apply scan_lookup, list_elem_of_In, Hin.
  - simpl in Hc. unfold Sql.holds in Hc.
    destruct (c k r) as [[]|]; done.
Qed.

Lemma fetchone_None (c : Z -> R -> option bool) t :
  Sql.fetchone c t = None <->
  (forall k r, Sql.rows t !! k = Some r -> c k r <> Some true).
Proof.
  unfold Sql.fetchone. split.
  - intros Hf k r Hk Hc.
    apply scan_lookup, list_elem_of_In in Hk.
    pose proof (find_none _ _ Hf _ Hk) as Hn. simpl in Hn.
    rewrite Hc in Hn. discriminate.
  - intros Hall.
    destruct (find _ _) as [[k r]|] eqn:E; [|done].
    apply fetchone_Some in E as [Hk Hc]. destruct (Hall k r Hk Hc).
Qed.

(** [SELECT ... WHERE id = ?] reads the row stored under the key. *)
Lemma fetchone_by_id t k :
  Sql.fetchone (fun k' _ => Sql.eq (Some k') (Some k)) t
  = (fun r => (k, r)) <$> Sql.rows t !! k.
Proof.
  destruct (Sql.fetchone _ t) as [[k' r]|] eqn:E.
  - apply fetchone_Some in E as [Hk Hc]. simpl in Hc.
    injection Hc as Hc. apply bool_decide_eq_true in Hc. subst k'.
    by rewrite Hk.
  - destruct (Sql.rows t !! k) as [r|] eqn:Hk; [|done].
    rewrite fetchone_None in E. destruct (E k r Hk).
    simpl. by rewrite bool_decide_eq_true_2.
Qed.

Lemma fetchall_elem (c : Z -> R -> option bool) t k r :
  (k, r) ∈ Sql.fetchall c t <->
  Sql.rows t !! k = Some r /\ c k r = Some true.
Proof.
  unfold Sql.fetchall. rewrite list_elem_of_In, filter_In.
  rewrite <- list_elem_of_In, scan_lookup. simpl. unfold Sql.holds.
  destruct (c k r) as [[]|]; split; intros [? ?]; try done; by split.
Qed.

Lemma insert_lookup r t k :
  Sql.rows (Sql.insert r t).1 !! k
  = if decide (k = Sql.next_rowid t) then Some r else Sql.rows t !! k.
Proof.
  unfold Sql.insert. simpl. case_decide as Hk.
  - subst. apply lookup_insert_eq.
  - by rewrite lookup_insert_ne.
Qed.

Lemma update_lookup (f : R -> R) t k k' :
  Sql.rows (Sql.update k f t) !! k'
  = if decide (k' = k) then f <$> Sql.rows t !! k' else Sql.rows t !! k'.
Proof.
  unfold Sql.update. simpl. case_decide as Hk.
  - subst. apply lookup_alter_eq.
  - by rewrite lookup_alter_ne.
Qed.

End store.

(** ** The subscription check *)

Section subscription.
Context `{Runtime}.

Lemma naive_instant_parse (s : option string) (e : Z) :
  naive_instant s = Some e ->
  exists a r, s = Some (String a r)
              /\ User.parse_timestamp (String a r) = Return (naive e).
Proof.
  unfold naive_instant, User.parse_timestamp.
  destruct s as [[|a r]|]; try discriminate.
  destruct (fromisoformat _) as [[w [o|]]|] eqn:E; try discriminate.
  cbn [tzoffset wall]. intros [= <-]. exists a, r. split; [done|].
  by rewrite E.
Qed.

Lemma readable_cases (s : option string) :
  readable s ->
  truthy_str s = false \/ exists e, naive_instant s = Some e.
Proof.
  unfold readable. intros Hr. destruct (truthy_str s); [right|by left].
  destruct Hr as [e He]; [done|]. by exists e.
Qed.

Lemma is_trial_expired_absent (utcnow : Z) (u : User.t) :
  truthy_str (User.trial_end_date u) = false ->
  User.is_trial_expired utcnow u = Return false.
Proof.
  unfold User.is_trial_expired.
  destruct (User.trial_end_date u) as [[|a r]|]; done.
Qed.

Lemma is_trial_expired_naive (utcnow e : Z) (u : User.t) :
  naive_instant (User.trial_end_date u) = Some e ->
  User.is_trial_expired utcnow u = Return (e <? utcnow).
Proof.
  intros (a & r & Hs & Hp)%naive_instant_parse.
  unfold User.is_trial_expired. rewrite Hs, Hp. reflexivity.
Qed.

Lemma naive_instant_truthy (s : option string) (e : Z) :
  naive_instant s = Some e -> truthy_str s = true.
Proof. destruct s as [[|a r]|]; done. Qed.

End subscription.

Section subscription_claims.
Context `{Runtime}.

(** C10.  A user whose [trial_end_date] is absent is never reported as
    expired, whatever the clock reads; hence with status ['trial'] the
    subscription is reported active at every time. *)
Theorem absent_trial_end_never_expires (utcnow : Z) (u : User.t) :
  User.trial_end_date u = None ->
  User.is_trial_expired utcnow u = Return false
  /\ (User.subscription_status u = "trial" ->
      User.is_subscription_active utcnow u = Return (Bool true)).
Proof.
  intros Hnone.
  assert (User.is_trial_expired utcnow u = Return false) as Hexp.
  { apply is_trial_expired_absent. by rewrite Hnone. }
  split; [exact Hexp|].
  intros Hst. unfold User.is_subscription_active.
  rewrite bool_decide_eq_true_2 by done. by rewrite Hexp.
Qed.

(** X1.  What the code keeps of C1, on the timestamps the check can read
    (absent, or naive ISO text).
    [is_trial_expired] returns true exactly when the clock is strictly
    after the stored [trial_end_date]; on status ['trial'] the
    subscription is active iff the trial is not expired, and at the
    expiry instant itself it is still active; on any other status the
    check returns [True] iff the status is ['active'], the
    [subscription_end_date] is set and the clock is at or before it. *)
Theorem subscription_on_readable_timestamps (utcnow : Z) (u : User.t) :
  (readable (User.trial_end_date u) ->
   exists expired,
     User.is_trial_expired utcnow u = Return expired
     /\ (expired = true <->
         exists e, naive_instant (User.trial_end_date u) = Some e
                   /\ e < utcnow)
     /\ (User.subscription_status u = "trial" ->
         User.is_subscription_active utcnow u
         = Return (Bool (negb expired))))
  /\ (forall e,
        User.subscription_status u = "trial" ->
        naive_instant (User.trial_end_date u) = Some e ->
        User.is_trial_expired e u = Return false
        /\ User.is_subscription_active e u = Return (Bool true))
  /\ (User.subscription_status u <> "trial" ->
      (User.subscription_status u = "active" ->
       readable (User.subscription_end_date u)) ->
      exists v,
        User.is_subscription_active utcnow u = Return v
        /\ (v = Bool true <->
            User.subscription_status u = "active"
            /\ exists e, naive_instant (User.subscription_end_date u) = Some e
                         /\ utcnow <= e)).
Proof.
  split; [|split].
  - intros [Habs|[e He]]%readable_cases.
    + exists false. split; [by apply is_trial_expired_absent|]. split.
      * split; [done|]. intros (e & He & _).
        apply naive_instant_truthy in He. congruence.
      * intros Hst. unfold User.is_subscription_active.
        rewrite bool_decide_eq_true_2 by done.
        by rewrite is_trial_expired_absent.
    + exists (e <? utcnow). split; [by apply is_trial_expired_naive|]. split.
      * rewrite Z.ltb_lt. split; [by exists e|].
        intros (e' & He' & Hlt). congruence.
      * intros Hst. unfold User.is_subscription_active.
        rewrite bool_decide_eq_true_2 by done.
        by rewrite (is_trial_expired_naive utcnow e).
  - intros e Hst He.
    assert (User.is_trial_expired e u = Return false) as Hexp.
    { rewrite (is_trial_expired_naive e e) by done. by rewrite Z.ltb_irrefl. }
    split; [exact Hexp|]. unfold User.is_subscription_active.
    rewrite bool_decide_eq_true_2 by done. by rewrite Hexp.
  - intros Hst Hread. unfold User.is_subscription_active.
    rewrite bool_decide_eq_false_2 by done.
    destruct (decide (User.subscription_status u = "active")) as [Hact|Hact].
    + rewrite bool_decide_eq_true_2 by done. cbn [negb].
      destruct (readable_cases _ (Hread Hact)) as [Habs|[e He]].
      * destruct (User.subscription_end_date u) as [[|a r]|] eqn:Hs;
          try discriminate.
        -- exists (Str EmptyString). split; [done|]. split; [done|].
           intros (_ & e & He & _). discriminate.
        -- exists None_. split; [done|]. split; [done|].
           intros (_ & e & He & _). discriminate.
      * destruct (naive_instant_parse _ _ He) as (a & r & Hs & Hp).
        rewrite Hs, Hp. exists (Bool (utcnow <=? e)). split; [done|].
        split.
        -- intros [= Hle]. apply Z.leb_le in Hle. split; [done|].
           exists e. by rewrite <- Hs.
        -- intros (_ & e' & He' & Hle). rewrite Hs in He.
           assert (e' = e) as -> by congruence.
           f_equal. by apply Z.leb_le.
    + rewrite bool_decide_eq_false_2 by done. cbn [negb].
      exists (Bool false). split; [done|]. split; [done|].
      by intros [? _].
Qed.

(** C1.  [is_trial_expired] and [is_subscription_active] are to return,
    for every user, whether the clock is past the stored end timestamp.
    They do not when that timestamp carries a UTC offset, which is what
    the ['Z'] replacement produces: the text parses to an aware datetime,
    and ordering it against the naive clock reading raises [TypeError],
    so neither check returns. *)
Theorem aware_timestamp_raises (utcnow : Z) (u : User.t)
    (a : ascii) (r : string) (w off : Z) :
  fromisoformat (replace "Z" "+00:00" (String a r))
  = Some (mk_datetime w (Some off)) ->
  (User.trial_end_date u = Some (String a r) ->
   User.is_trial_expired utcnow u = Raise TypeError
   /\ (User.subscription_status u = "trial" ->
       User.is_subscription_active utcnow u = Raise TypeError))
  /\ (User.subscription_status u = "active" ->
      User.subscription_end_date u = Some (String a r) ->
      User.is_subscription_active utcnow u = Raise TypeError).
Proof.
  intros Hparse.
  assert (User.parse_timestamp (String a r)
          = Return (mk_datetime w (Some off))) as Hp.
  { unfold User.parse_timestamp. by rewrite Hparse. }
  split.
  - intros Hs.
    assert (User.is_trial_expired utcnow u = Raise TypeError) as Hexp.
    { unfold User.is_trial_expired. by rewrite Hs, Hp. }
    split; [exact Hexp|]. intros Hst. unfold User.is_subscription_active.
    rewrite bool_decide_eq_true_2 by done. by rewrite Hexp.
  - intros Hst Hs. unfold User.is_subscription_active.
    rewrite Hst, Hs, Hp. reflexivity.
Qed.

(** X2.  A stored end timestamp that [datetime.fromisoformat] rejects
    makes the check that reads it raise [ValueError]. *)
Theorem unparseable_timestamp_raises (utcnow : Z) (u : User.t)
    (a : ascii) (r : string) :
  fromisoformat (replace "Z" "+00:00" (String a r)) = None ->
  (User.trial_end_date u = Some (String a r) ->
   User.is_trial_expired utcnow u = Raise ValueError
   /\ (User.subscription_status u = "trial" ->
       User.is_subscription_active utcnow u = Raise ValueError))
  /\ (User.subscription_status u = "active" ->
      User.subscription_end_date u = Some (String a r) ->
      User.is_subscription_active utcnow u = Raise ValueError).
Proof.
  intros Hparse.
  assert (User.parse_timestamp (String a r) = Raise ValueError) as Hp.
  { unfold User.parse_timestamp. by rewrite Hparse. }
  split.
  - intros Hs.
    assert (User.is_trial_expired utcnow u = Raise ValueError) as Hexp.
    { unfold User.is_trial_expired. by rewrite Hs, Hp. }
    split; [exact Hexp|]. intros Hst. unfold User.is_subscription_active.
    rewrite bool_decide_eq_true_2 by done. by rewrite Hexp.
  - intros Hst Hs. unfold User.is_subscription_active.
    rewrite Hst, Hs, Hp. reflexivity.
Qed.

End subscription_claims.

Lemma absent_trial_end_witness :
  User.trial_end_date (sample_trial_user None) = None
  /\ @User.is_trial_expired reference_runtime sample_now
       (sample_trial_user None) = Return false
  /\ @User.is_subscription_active reference_runtime sample_now
       (sample_trial_user None) = Return (Bool true).
Proof.
  split; [reflexivity|].
  destruct (@absent_trial_end_never_expires reference_runtime sample_now
              (sample_trial_user None) eq_refl) as [Hexp Hact].
  split; [exact Hexp|exact (Hact eq_refl)].
Defined.

(** A trial ending 2024-03-15T10:30:00: one microsecond before, at, and
    one microsecond after the expiry instant. *)
Lemma subscription_on_readable_timestamps_witness :
  let u := sample_trial_user (Some "2024-03-15T10:30:00") in
  readable (H := reference_runtime) (User.trial_end_date u)
  /\ @User.is_subscription_active reference_runtime (sample_now - 1) u
     = Return (Bool true)
  /\ @User.is_subscription_active reference_runtime sample_now u
     = Return (Bool true)
  /\ @User.is_trial_expired reference_runtime (sample_now + 1) u
     = Return true.
Proof.
  intros u.
  assert (readable (H := reference_runtime) (User.trial_end_date u)) as Hr.
  { intros _. exists sample_now. vm_compute. reflexivity. }
  split; [exact Hr|].
  destruct (@subscription_on_readable_timestamps reference_runtime sample_now u)
    as (_ & Hat & _).
  destruct (Hat sample_now eq_refl) as [_ Hact]; [vm_compute; reflexivity|].
  split; [vm_compute; reflexivity|]. split; [exact Hact|].
  vm_compute. reflexivity.
Defined.

Lemma aware_timestamp_raises_witness :
  let u := sample_subscriber "active" (Some "2030-01-01T00:00:00Z") in
  User.subscription_status u = "active"
  /\ User.subscription_end_date u = Some "2030-01-01T00:00:00Z"
  /\ @User.is_subscription_active reference_runtime sample_now u
     = Raise TypeError.
Proof.
  intros u. split; [reflexivity|]. split; [reflexivity|].
  destruct (@aware_timestamp_raises reference_runtime sample_now u
              "2" "030-01-01T00:00:00Z" 1893456000000000 0)
    as [_ Hact]; [vm_compute; reflexivity|].
  exact (Hact eq_refl eq_refl).
Defined.

Lemma unparseable_timestamp_raises_witness :
  let u := sample_trial_user (Some "31/12/2024") in
  User.trial_end_date u = Some "31/12/2024"
  /\ @User.is_trial_expired reference_runtime sample_now u
     = Raise ValueError
  /\ @User.is_subscription_active reference_runtime sample_now u
     = Raise ValueError.
Proof.
  intros u. split; [reflexivity|].
  destruct (@unparseable_timestamp_raises reference_runtime sample_now u
              "3" "1/12/2024") as [Htrial _]; [vm_compute; reflexivity|].
  destruct (Htrial eq_refl) as [Hexp Hact].
  split; [exact Hexp|exact (Hact eq_refl)].
Defined.

(** ** Goal progress *)

Lemma float_ltb_leb (x y : float) :
  PrimFloat.ltb x y = true -> PrimFloat.leb x y = true.
Proof.
  rewrite ltb_spec, leb_spec. unfold SFltb, SFleb.
  destruct (SFcompare _ _) as [[]|]; congruence.
Qed.

(** C2.  [get_progress_percentage] never raises.  It returns 0 when
    [target_amount] equals 0.  Otherwise, with [p] the float
    [(current_amount / target_amount) * 100], it returns [min(100, p)]:
    [p] itself when [p] is below 100, and 100 in every other case, that
    of a [p] that is not a number included.  So what it returns never
    exceeds 100. *)
Theorem progress_percentage_capped (g : FinancialGoal.t) :
  let p :=
    PrimFloat.mul
      (PrimFloat.div (FinancialGoal.current_amount g)
                     (FinancialGoal.target_amount g))
      100%float in
  exists v,
    FinancialGoal.get_progress_percentage g = Return v
    /\ v = (if PrimFloat.eqb (FinancialGoal.target_amount g) 0%float
            then Int 0
            else if PrimFloat.ltb p 100%float then Float p else Int 100)
    /\ match v with
       | Int n => n <= 100
       | Float x => PrimFloat.leb x 100%float = true
       end.
Proof.
  intros p. unfold FinancialGoal.get_progress_percentage, truediv.
  change (float_of_int 0) with 0%float.
  change (float_of_int 100) with 100%float.
  destruct (PrimFloat.eqb (FinancialGoal.target_amount g) 0%float) eqn:Hz.
  - exists (Int 0). split; [reflexivity|]. split; [reflexivity|]. lia.
  - cbn [mbind result_bind]. unfold py_min, num_lt.
    change (float_of_int 100) with 100%float. fold p.
    destruct (PrimFloat.ltb p 100%float) eqn:Hlt.
    + exists (Float p). split; [reflexivity|]. split; [reflexivity|].
      by apply float_ltb_leb.
    + exists (Int 100). split; [reflexivity|]. split; [reflexivity|]. lia.
Qed.

Lemma progress_percentage_capped_witness :
  let with_amounts target current :=
    FinancialGoal.__init__ None (Some 1) (Some "Reserva") (Some target)
      (Some current) None None None in
  FinancialGoal.get_progress_percentage (with_amounts 5000 1250)%float
  = Return (Float 25%float)
  /\ FinancialGoal.get_progress_percentage (with_amounts 5000 5000)%float
     = Return (Int 100)
  /\ FinancialGoal.get_progress_percentage (with_amounts 5000 7500)%float
     = Return (Int 100)
  /\ FinancialGoal.get_progress_percentage (with_amounts 0 7500)%float
     = Return (Int 0)
  /\ FinancialGoal.get_progress_percentage (with_amounts infinity infinity)
     = Return (Int 100)
  /\ FinancialGoal.get_progress_percentage (with_amounts 5000 (-50))%float
     = Return (Float (-1)%float).
Proof.
  intros with_amounts.
  assert (forall g v,
            (if PrimFloat.eqb (FinancialGoal.target_amount g) 0%float
             then Int 0
             else if PrimFloat.ltb
                       (PrimFloat.mul
                          (PrimFloat.div (FinancialGoal.current_amount g)
                                         (FinancialGoal.target_amount g))
                          100%float) 100%float
                  then Float (PrimFloat.mul
                                (PrimFloat.div
                                   (FinancialGoal.current_amount g)
                                   (FinancialGoal.target_amount g))
                                100%float)
                  else Int 100) = v ->
            FinancialGoal.get_progress_percentage g = Return v) as Hcase.
  { intros g v <-.
    destruct (progress_percentage_capped g) as (v & Hv & -> & _).
    exact Hv. }
  split; [|split; [|split; [|split; [|split]]]];
    apply Hcase; vm_compute; reflexivity.
Defined.

(** ** The plan table *)

(** C3.  [get_plan_features] looks [subscription_plan] up in a table
    whose keys are trial, mei, professional and enterprise, each with its
    name, transaction cap, reports, automation and multi-user flags; a
    plan that is no key of the table gets the trial entry. *)
Theorem plan_features_lookup (u : User.t) :
  dom User.features
  = ({[ "trial"; "mei"; "professional"; "enterprise" ]} : gset string)
  /\ User.features !! "trial"
     = Some (mk_plan_features "Teste Grátis" 10 false false false)
  /\ User.features !! "mei"
     = Some (mk_plan_features "Plano MEI" 100 true false false)
  /\ User.features !! "professional"
     = Some (mk_plan_features "Plano Profissional" 500 true true false)
  /\ User.features !! "enterprise"
     = Some (mk_plan_features "Plano Empresarial" (-1) true true true)
  /\ (forall f, User.features !! User.subscription_plan u = Some f ->
                User.get_plan_features u = f)
  /\ (User.subscription_plan u ∉ dom User.features ->
      User.get_plan_features u
      = mk_plan_features "Teste Grátis" 10 false false false).
Proof.
  split; [|split; [|split; [|split; [|split; [|split]]]]].
  - unfold User.features. rewrite !dom_insert_L, dom_empty_L. set_solver.
  - reflexivity.
  - reflexivity.
  - reflexivity.
  - reflexivity.
  - intros f Hf. unfold User.get_plan_features. by rewrite Hf.
  - intros Hnot. apply not_elem_of_dom in Hnot.
    unfold User.get_plan_features. rewrite Hnot. reflexivity.
Qed.

Lemma plan_features_lookup_witness :
  let known := sample_subscriber "active" None in
  let unknown :=
    User.__init__ (Some 3) (Some "lia") (Some "lia@example.com") (Some "h")
      (Some "Lia") None None None None None (Some "gold") None None in
  User.get_plan_features known
  = mk_plan_features "Plano Profissional" 500 true true false
  /\ User.get_plan_features unknown
     = mk_plan_features "Teste Grátis" 10 false false false.
Proof.
  intros known unknown. split.
  - destruct (plan_features_lookup known) as (_ & _ & _ & Hpro & _ & Hget & _).
    exact (Hget _ Hpro).
  - destruct (plan_features_lookup unknown) as (Hdom & _ & _ & _ & _ & _ & Hdef).
    apply Hdef. rewrite Hdom. vm_compute. set_solver.
Defined.

(** ** [save] *)


Lemma bind_real_number (x : float) :
  PrimFloat.is_nan x = false -> Sql.bind_real x = Some x.
Proof. unfold Sql.bind_real. by intros ->. Qed.







(** ** Saving and reloading *)

Lemma float_or_zero_idem (a : option float) :
  float_or_zero (Some (float_or_zero a)) = float_or_zero a.
Proof.
  destruct a as [x|]; [|reflexivity]. cbn.
  destruct (truthy_float x) eqn:E; cbn.
  - by rewrite E.
  - reflexivity.
Qed.

Lemma str_or_idem (s : option string) (default : string) :
  default <> EmptyString ->
  str_or (Some (str_or s default)) default = str_or s default.
Proof.
  intros Hd. destruct s as [[|a r]|]; cbn; try done;
    by destruct default.
Qed.

Lemma bool_or_false_bind (b : bool) :
  bool_or_false (Sql.bind_bool b) = b.
Proof. by destruct b. Qed.



Lemma Account_of_row_written (self : Account.t) (k : Z)
    (row : accounts.row) :
  AccountSpec.faithful self ->
  AccountSpec.written self row ->
  Account.of_row k row
  = AccountSpec.with_stored (Account.set_id self k)
      (Some (accounts.user_id row)) (accounts.created_at row).
Proof.
  intros [Hc Hnan] (Hn & Hty & Ham & Hdue & Hst).
  assert (float_or_zero (Some (Account.amount self)) = Account.amount self)
    as Hfix.
  { symmetry. exact (f_equal Account.amount Hc). }
  assert (str_or (Some (Account.status self)) "pending"
          = Account.status self) as Hsfix.
  { symmetry. exact (f_equal Account.status Hc). }
  unfold Account.of_row, Account.__init__.
  rewrite <- Ham, (bind_real_number _ Hnan), Hfix, <- Hn, <- Hty, <- Hdue,
    <- Hst, Hsfix. reflexivity.
Qed.

Lemma bindable_int64 (n : Z) : Sql.bindable n = bool_decide (int64 n).
Proof.
  unfold Sql.bindable, int64. case_bool_decide as Hn.
  - apply andb_true_iff. split; [apply Z.leb_le|apply Z.ltb_lt]; lia.
  - apply andb_false_iff.
    destruct (decide (- 2 ^ 63 <= n)) as [Hlo|Hlo].
    + right. apply Z.ltb_ge. lia.
    + left. apply Z.leb_gt. lia.
Qed.

Lemma execute_fetchone_by_id {R : Type} (t : Sql.table R) (k : Z) :
  Sql.execute_fetchone [k] (fun k' _ => Sql.eq (Some k') (Some k)) t
  = match Sql.rows t !! k with
    | Some r => Return (Some (k, r))
    | None => if decide (int64 k) then Return None else Raise OverflowError
    end.
Proof.
  unfold Sql.execute_fetchone. rewrite fetchone_by_id.
  destruct (Sql.rows t !! k); cbn [fmap option_fmap option_map]; [done|].
  cbn [forallb]. rewrite andb_true_r, bindable_int64.
  by case_bool_decide; [rewrite decide_True|rewrite decide_False].
Qed.

Lemma Account_get_by_id_row (k : Z) (d : database) :
  Account.get_by_id k None d
  = match Sql.rows (db_accounts d) !! k with
    | Some r => Return (Some (Account.of_row k r))
    | None => AccountSpec.missing k
    end.
Proof.
  unfold Account.get_by_id, AccountSpec.missing. cbn [nonzero].
  rewrite execute_fetchone_by_id.
  destruct (Sql.rows (db_accounts d) !! k); [done|].
  by destruct (decide (int64 k)).
Qed.


Lemma FinancialGoal_of_row_written (self : FinancialGoal.t) (k : Z)
    (row : financial_goals.row) :
  FinancialGoalSpec.faithful self ->
  FinancialGoalSpec.written self row ->
  FinancialGoal.of_row k row
  = FinancialGoalSpec.with_stored (FinancialGoal.set_id self k)
      (Some (financial_goals.user_id row))
      (financial_goals.created_at row).
Proof.
  intros [Hc Hnan] (Hti & Hta & Hca & Hdate & Hdone).
  assert (float_or_zero (Some (FinancialGoal.target_amount self))
          = FinancialGoal.target_amount self) as Htfix.
  { symmetry. exact (f_equal FinancialGoal.target_amount Hc). }
  assert (float_or_zero (Some (FinancialGoal.current_amount self))
          = FinancialGoal.current_amount self) as Hcfix.
  { symmetry. exact (f_equal FinancialGoal.current_amount Hc). }
  unfold FinancialGoal.of_row, FinancialGoal.__init__.
  rewrite <- Hta, Htfix, <- Hca, (bind_real_number _ Hnan), Hcfix, <- Hti,
    <- Hdate, <- Hdone, bool_or_false_bind. reflexivity.
Qed.


(** What the constructors build is [constructed]. *)
Lemma Transaction_init_constructed id_ user_id_ description_ amount_
    transaction_type_ category_ date_ created_at_ is_recurring_
    recurrence_type_ account_id_ :
  TransactionSpec.constructed
    (Transaction.__init__ id_ user_id_ description_ amount_
       transaction_type_ category_ date_ created_at_ is_recurring_
       recurrence_type_ account_id_).
Proof.
  unfold TransactionSpec.constructed, Transaction.__init__.
  cbn - [float_or_zero bool_or_false].
  by rewrite float_or_zero_idem, bool_or_false_bind.
Qed.

Lemma Account_init_constructed id_ user_id_ name_ account_type_ amount_
    due_date_ status_ created_at_ :
  AccountSpec.constructed
    (Account.__init__ id_ user_id_ name_ account_type_ amount_ due_date_
       status_ created_at_).
Proof.
  unfold AccountSpec.constructed, Account.__init__.
  cbn - [float_or_zero str_or].
  by rewrite float_or_zero_idem, str_or_idem.
Qed.

Lemma FinancialGoal_init_constructed id_ user_id_ title_ target_amount_
    current_amount_ target_date_ created_at_ is_completed_ :
  FinancialGoalSpec.constructed
    (FinancialGoal.__init__ id_ user_id_ title_ target_amount_
       current_amount_ target_date_ created_at_ is_completed_).
Proof.
  unfold FinancialGoalSpec.constructed, FinancialGoal.__init__.
  cbn - [float_or_zero bool_or_false].
  by rewrite !float_or_zero_idem, bool_or_false_bind.
Qed.




Lemma sample_account_faithful : AccountSpec.faithful sample_account.
Proof. split; [apply Account_init_constructed|reflexivity]. Defined.



(** ** Lookups *)

Lemma User_get_by_id_row (k : Z) (d : database) :
  User.get_by_id k d
  = match Sql.rows (db_users d) !! k with
    | Some r => Return (Some (User.of_row k r))
    | None => if decide (int64 k) then Return None else Raise OverflowError
    end.
Proof.
  unfold User.get_by_id. rewrite execute_fetchone_by_id.
  destruct (Sql.rows (db_users d) !! k); [done|].
  by destruct (decide (int64 k)).
Qed.

(** C8 (amended).  A lookup whose key matches no stored row returns
    [None] and raises nothing when the key can be bound: always for
    [User.get_by_email] and [User.get_by_username], whose keys are text,
    and for [User.get_by_id] and [Account.get_by_id] (with or without
    the user filter) when the integers passed are within the signed
    64-bit range; an integer outside that range makes the call raise
    [OverflowError].  A key that is stored returns its record. *)
Theorem lookup_miss_returns_none_within_64_bits (d : database) :
  (forall user_id,
     Sql.rows (db_users d) !! user_id = None ->
     (int64 user_id -> User.get_by_id user_id d = Return None)
     /\ (~ int64 user_id -> User.get_by_id user_id d = Raise OverflowError))
  /\ (forall email_,
        (forall k r, Sql.rows (db_users d) !! k = Some r ->
                     users.email r <> email_) ->
        User.get_by_email email_ d = Return None)
  /\ (forall username_,
        (forall k r, Sql.rows (db_users d) !! k = Some r ->
                     users.username r <> username_) ->
        User.get_by_username username_ d = Return None)
  /\ (forall account_id user_id_,
        (forall r, Sql.rows (db_accounts d) !! account_id = Some r ->
                   exists u, nonzero user_id_ = Some u
                             /\ accounts.user_id r <> u) ->
        let bound :=
          int64 account_id
          /\ forall u, nonzero user_id_ = Some u -> int64 u in
        (bound -> Account.get_by_id account_id user_id_ d = Return None)
        /\ (~ bound ->
            Account.get_by_id account_id user_id_ d = Raise OverflowError))
  /\ (forall user_id r,
        Sql.rows (db_users d) !! user_id = Some r ->
        User.get_by_id user_id d = Return (Some (User.of_row user_id r))).
Proof.
  split; [|split; [|split; [|split]]].
  - intros k Hk. rewrite User_get_by_id_row, Hk.
    split; intros Hb; [by rewrite decide_True|by rewrite decide_False].
  - intros e Hmiss. unfold User.get_by_email.
    destruct (Sql.fetchone _ _) as [[k r]|] eqn:E; [|done].
    apply fetchone_Some in E as [Hk Hc]. cbn in Hc.
    injection Hc as Hc. apply bool_decide_eq_true in Hc.
    destruct (Hmiss k r Hk Hc).
  - intros n Hmiss. unfold User.get_by_username.
    destruct (Sql.fetchone _ _) as [[k r]|] eqn:E; [|done].
    apply fetchone_Some in E as [Hk Hc]. cbn in Hc.
    injection Hc as Hc. apply bool_decide_eq_true in Hc.
    destruct (Hmiss k r Hk Hc).
  - intros k uid Hmiss bound. unfold bound, Account.get_by_id.
    destruct (nonzero uid) as [u|] eqn:Hu.
    + unfold Sql.execute_fetchone.
      destruct (Sql.fetchone _ _) as [[k' r]|] eqn:E.
      { apply fetchone_Some in E as [Hk Hc]. cbn in Hc.
        destruct (bool_decide (k' = k)) eqn:Hkk;
          destruct (bool_decide (accounts.user_id r = u)) eqn:Huu;
          try discriminate.
        apply bool_decide_eq_true in Hkk, Huu. subst k'.
        destruct (Hmiss r Hk) as (u' & [= <-] & Hne). done. }
      cbn [forallb]. rewrite andb_true_r, !bindable_int64. split.
      * intros [Hk Hb]. specialize (Hb u eq_refl).
        by rewrite !bool_decide_eq_true_2.
      * intros Hno. destruct (decide (int64 k)) as [Hk|Hk].
        -- rewrite (bool_decide_eq_true_2 _ Hk).
           rewrite bool_decide_eq_false_2; [done|].
           intros Hb. apply Hno. split; [done|]. by intros ? [= <-].
        -- by rewrite (bool_decide_eq_false_2 _ Hk).
    + rewrite execute_fetchone_by_id.
      destruct (Sql.rows (db_accounts d) !! k) as [r|] eqn:Hk.
      { destruct (Hmiss r eq_refl) as (u' & Hu' & _). discriminate. }
      split.
      * intros [Hb _]. by rewrite decide_True.
      * intros Hno. rewrite decide_False; [done|].
        intros Hb. apply Hno. split; [done|]. by intros ? [=].
  - intros k r Hk. by rewrite User_get_by_id_row, Hk.
Qed.

(** C8 as stated fails: no user has the identifier 2^63 and no account
    either, yet looking one up under it raises [OverflowError] instead
    of returning [None]; so does the user filter 2^63 on an account
    that exists. *)
Lemma lookup_miss_raises_overflow :
  Sql.rows (db_users empty_database) !! (2 ^ 63) = None
  /\ User.get_by_id (2 ^ 63) empty_database = Raise OverflowError
  /\ User.get_by_id (- 2 ^ 63 - 1) empty_database = Raise OverflowError
  /\ Account.get_by_id (2 ^ 63) None sample_ledger = Raise OverflowError
  /\ Account.get_by_id 1 (Some (2 ^ 63)) sample_ledger
     = Raise OverflowError.
Proof. repeat split; vm_compute; reflexivity. Qed.

(** ** Registration *)

Section registration.
Context `{Runtime}.

(** C9.  Every registration creates its user with a seven-day trial: a
    registration the store accepts (username and email not taken) stores
    one new user and returns it as read back from the store, its
    identifier the new key; its [trial_end_date] is the ISO text of the
    clock reading of [create] plus exactly seven days, so that, read back
    as written, the trial counts as expired strictly after that instant
    and not before.  A registration whose username or email is taken
    creates no user: the store raises [IntegrityError]. *)
Theorem create_starts_seven_day_trial (utcnow : Z)
    (now_text salt username_ email_ password full_name_ : string)
    (phone_ : option string) (d : database) :
  (users.taken username_ email_ (db_users d) = false ->
   exists k u d',
     User.create utcnow now_text salt username_ email_ password full_name_
       phone_ d = Return (d', Some u)
     /\ Sql.rows (db_users d) !! k = None
     /\ User.id u = Some k
     /\ User.get_by_id k d' = Return (Some u)
     /\ User.trial_end_date u
        = Some (isoformat (utcnow + 7 * 86400 * 1000000))
     /\ User.username u = Some username_
     /\ User.email u = Some email_
     /\ User.subscription_status u = "trial"
     /\ (forall k', k' <> k ->
                    Sql.rows (db_users d') !! k' = Sql.rows (db_users d) !! k')
     /\ (naive_instant (Some (isoformat (utcnow + 7 * 86400 * 1000000)))
         = Some (utcnow + 7 * 86400 * 1000000) ->
         forall t, User.is_trial_expired t u
                   = Return (utcnow + 7 * 86400 * 1000000 <? t)))
  /\ (users.taken username_ email_ (db_users d) = true ->
      User.create utcnow now_text salt username_ email_ password full_name_
        phone_ d = Raise IntegrityError).
Proof.
  split; [|intros Htaken; unfold User.create, users.insert;
           by rewrite Htaken].
  intros Hfree. unfold User.create, users.insert. rewrite Hfree.
  cbn [mbind result_bind Sql.insert].
  set (k := Sql.next_rowid (db_users d)).
  set (row := users.mk_row _ _ _ _ _ _ _ _ _ _ _ _).
  set (d' := with_users d _).
  assert (Sql.rows (db_users d') !! k = Some row) as Hrow.
  { unfold d', with_users. cbn. apply lookup_insert_eq. }
  rewrite User_get_by_id_row, Hrow. cbn [fmap option_fmap option_map].
  exists k, (User.of_row k row), d'.
  split; [reflexivity|]. split; [apply next_rowid_fresh|].
  split; [reflexivity|].
  split; [by rewrite User_get_by_id_row, Hrow|].
  split; [reflexivity|]. split; [reflexivity|]. split; [reflexivity|].
  split; [reflexivity|]. split.
  - intros k' Hne. unfold d', with_users. cbn.
    by rewrite lookup_insert_ne.
  - intros Hread t. by apply is_trial_expired_naive.
Qed.

End registration.

Lemma lookup_miss_returns_none_within_64_bits_witness :
  exists d',
    Account.save sample_now_text sample_account empty_database
    = Return (d', Account.set_id sample_account 1)
    /\ User.get_by_id 7 d' = Return None
    /\ User.get_by_id (2 ^ 63 - 1) d' = Return None
    /\ User.get_by_id (2 ^ 63) d' = Raise OverflowError
    /\ User.get_by_email "ana@example.com" d' = Return None
    /\ User.get_by_username "ana" d' = Return None
    /\ Account.get_by_id 2 None d' = Return None
    /\ Account.get_by_id 1 (Some 5) d' = Return None
    /\ Account.get_by_id 1 (Some (- 2 ^ 63 - 1)) d' = Raise OverflowError.
Proof.
  eexists. split; [vm_compute; reflexivity|].
  match goal with |- User.get_by_id _ ?d = _ /\ _ =>
    destruct (lookup_miss_returns_none_within_64_bits d)
      as (Hid & Hem & Hun & Hacc & _)
  end.
  split; [apply Hid; [reflexivity|unfold int64; lia]|].
  split; [apply Hid; [reflexivity|unfold int64; lia]|].
  split; [apply Hid; [reflexivity|unfold int64; lia]|].
  split; [apply Hem; intros k r Hk; vm_compute in Hk; discriminate Hk|].
  split; [apply Hun; intros k r Hk; vm_compute in Hk; discriminate Hk|].
  split; [|split].
  - apply Hacc.
    + intros r Hr. vm_compute in Hr. discriminate Hr.
    + split; [unfold int64; lia|]. intros u Hu. discriminate Hu.
  - apply Hacc.
    + intros r Hr. exists 5. split; [reflexivity|].
      vm_compute in Hr. injection Hr as <-. vm_compute. discriminate.
    + split; [unfold int64; lia|]. intros u [= <-]. unfold int64. lia.
  - apply Hacc.
    + intros r Hr. exists (- 2 ^ 63 - 1). split; [reflexivity|].
      vm_compute in Hr. injection Hr as <-. vm_compute. discriminate.
    + intros [_ Hb]. specialize (Hb (- 2 ^ 63 - 1) eq_refl).
      unfold int64 in Hb. lia.
Defined.

Lemma create_starts_seven_day_trial_witness :
  users.taken "ana" "ana@example.com" (db_users empty_database) = false
  /\ exists u d',
       @User.create reference_runtime sample_now sample_now_text "s" "ana"
         "ana@example.com" "segredo" "Ana Lima" None empty_database
       = Return (d', Some u)
       /\ User.id u = Some 1
       /\ User.trial_end_date u = Some "2024-03-22T10:30:00"
       /\ @User.is_trial_expired reference_runtime
            (sample_now + 7 * 86400 * 1000000) u = Return false
       /\ @User.is_trial_expired reference_runtime
            (sample_now + 7 * 86400 * 1000000 + 1) u = Return true.
Proof.
  split; [reflexivity|].
  destruct (@create_starts_seven_day_trial reference_runtime sample_now
              sample_now_text "s" "ana" "ana@example.com" "segredo"
              "Ana Lima" None empty_database) as [Hcreated _].
  destruct (Hcreated eq_refl)
    as (k & u & d' & Hcreate & _ & Hid & _ & Hend & _ & _ & _ & _ & Hexpiry).
  exists u, d'. split; [exact Hcreate|].
  assert (k = 1) as ->.
  { vm_compute in Hcreate. injection Hcreate as _ <-.
    vm_compute in Hid. by injection Hid as <-. }
  split; [exact Hid|]. split; [exact Hend|].
  split; rewrite Hexpiry by (vm_compute; reflexivity); reflexivity.
Defined.

(** ** Formatted numbers *)

Lemma append_cons (c : ascii) (s1 s2 : string) :
  String c s1 +:+ s2 = String c (s1 +:+ s2).
Proof. reflexivity. Qed.

Lemma append_assoc (s1 s2 s3 : string) :
  (s1 +:+ s2) +:+ s3 = s1 +:+ s2 +:+ s3.
Proof.
  induction s1 as [|c s1 IH]; [done|].
  rewrite !append_cons. by rewrite IH.
Qed.


Lemma value_acc_app (a : Z) (s1 s2 : string) :
  value_acc a (s1 +:+ s2) = value_acc (value_acc a s1) s2.
Proof.
  revert a. induction s1 as [|c s1 IH]; intros a; [done|].
  rewrite append_cons. cbn. apply IH.
Qed.

Lemma pretty_N_go_app (x : N) (s : string) :
  pretty_N_go x s = pretty_N_go x "" +:+ s.
Proof.
  revert s. induction (N.lt_wf_0 x) as [x _ IH]. intros s.
  destruct (decide (x = 0)%N) as [->|Hx]; [done|].
  assert (0 < x)%N as Hpos by lia.
  rewrite (pretty_N_go_step x s), (pretty_N_go_step x "") by done.
  assert (x `div` 10 < x)%N as Hlt by (apply N.div_lt; lia).
  rewrite (IH _ Hlt (String _ s)), (IH _ Hlt (String _ "")).
  by rewrite append_assoc.
Qed.

Lemma pretty_N_char_value (x : N) :
  (x < 10)%N -> Z.of_N (N_of_ascii (pretty_N_char x)) - 48 = Z.of_N x.
Proof.
  intros Hx.
  assert (x = 0 \/ x = 1 \/ x = 2 \/ x = 3 \/ x = 4 \/ x = 5 \/ x = 6
          \/ x = 7 \/ x = 8 \/ x = 9)%N as Hc by lia.
  repeat (destruct Hc as [->|Hc]; [reflexivity|]). by subst.
Qed.

Lemma value_pretty_N_go (x : N) :
  value_acc 0 (pretty_N_go x "") = Z.of_N x.
Proof.
  induction (N.lt_wf_0 x) as [x _ IH].
  destruct (decide (x = 0)%N) as [->|Hx]; [done|].
  rewrite pretty_N_go_step, pretty_N_go_app, value_acc_app by lia.
  rewrite IH by (apply N.div_lt; lia). cbn.
  rewrite pretty_N_char_value by (apply N.mod_lt; lia).
  rewrite (N.div_mod x 10) at 3 by lia. lia.
Qed.

Lemma pretty_Z_pos (p : positive) :
  pretty (Z.pos p) = pretty_N_go (N.pos p) "".
Proof. reflexivity. Qed.

Lemma value_pretty (n : Z) : 0 <= n -> value_acc 0 (pretty n) = n.
Proof.
  destruct n as [|p|p]; [done| |lia]. intros _.
  by rewrite pretty_Z_pos, value_pretty_N_go.
Qed.

Lemma value_zeros (k : nat) (s : string) :
  value_acc 0 (zeros k +:+ s) = value_acc 0 s.
Proof.
  induction k as [|k IH]; [done|].
  cbn [zeros]. rewrite append_cons. exact IH.
Qed.

Lemma value_zfill (w : nat) (n : Z) :
  0 <= n -> value_acc 0 (zfill w (pretty n)) = n.
Proof. intros Hn. unfold zfill. by rewrite value_zeros, value_pretty. Qed.

Lemma pretty_not_dash (n : Z) (r : string) :
  0 <= n -> pretty n <> String "-" r.
Proof.
  destruct n as [|p|p]; [done| |lia]. intros _.
  rewrite pretty_Z_pos.
  by apply (pretty_N_go_ne_dash (N.pos p) "" r).
Qed.

Lemma zfill_not_dash (w : nat) (n : Z) (r : string) :
  0 <= n -> zfill w (pretty n) <> String "-" r.
Proof.
  intros Hn. unfold zfill.
  destruct (w - String.length (pretty n))%nat as [|k].
  - by apply pretty_not_dash.
  - cbn [zeros]. rewrite append_cons. discriminate.
Qed.

Lemma decode_format (w : nat) (n : Z) : decode (format_0d w n) = n.
Proof.
  unfold format_0d. destruct (n <? 0) eqn:Hn.
  - apply Z.ltb_lt in Hn.
    change ("-" +:+ ?s) with (String "-" s).
    change (decode (String "-" ?s)) with (- value_acc 0 s).
    rewrite value_zfill by lia. lia.
  - apply Z.ltb_ge in Hn. pose proof (value_zfill w n Hn) as Hv.
    pose proof (zfill_not_dash w n) as Hd. unfold decode.
    destruct (zfill w (pretty n)) as [|c r] eqn:E; [by cbn in Hv|].
    destruct (Ascii.eqb c "-") eqn:Hc; [|exact Hv].
    apply Ascii.eqb_eq in Hc. subst c. by destruct (Hd r Hn).
Qed.

(** Zero padding loses nothing: the text determines the number. *)
Lemma py_str_format (n : Z) : py_str n = format_0d 0 n.
Proof. by destruct n. Qed.

Lemma decode_py_str (n : Z) : decode (py_str n) = n.
Proof. rewrite py_str_format. apply decode_format. Qed.




(** ** Aggregates *)





Lemma holds_and (a b : option bool) :
  Sql.holds (Sql.and a b) = true
  <-> Sql.holds a = true /\ Sql.holds b = true.
Proof. destruct a as [[]|], b as [[]|]; cbn; intuition congruence. Qed.

Lemma holds_eq {A : Type} `{EqDecision A} (a : option A) (y : A) :
  Sql.holds (Sql.eq a (Some y)) = true <-> a = Some y.
Proof.
  destruct a as [x|]; cbn; [|done]. case_bool_decide; cbn.
  - split; [intros _; by f_equal|done].
  - split; [done|]. intros [= ->]. done.
Qed.








Section monthly.
Context `{Runtime}.




(** The year SQLite writes has four characters or more; [str(year)] of a
    year from 0 to 999 has three at most. *)
Lemma short_year_text (year y : Z) :
  0 <= year < 1000 -> format_0d 4 y <> py_str year.
Proof.
  intros Hyear Heq.
  assert (y = year) as ->.
  { rewrite <- (decode_format 4 y), Heq, py_str_format. apply decode_format. }
  assert (forallb (fun n => negb (String.eqb (format_0d 4 n) (py_str n)))
            (seqZ 0 1000) = true) as Hall by (vm_compute; reflexivity).
  rewrite forallb_forall in Hall.
  assert (In year (seqZ 0 1000)) as Hin.
  { apply list_elem_of_In, elem_of_seqZ. lia. }
  apply Hall in Hin. rewrite Heq, String.eqb_refl in Hin. discriminate Hin.
Qed.

Lemma filter_none {A : Type} (f : A -> bool) (l : list A) :
  (forall x, f x = false) -> List.filter f l = [].
Proof.
  intros Hf. induction l as [|x l IH]; [done|]. cbn. by rewrite Hf.
Qed.

(** C6, where the code misses.  For a year from 0 to 999 the summary is
    (0.0, 0.0) whatever the store holds: the query compares the year
    SQLite writes with four digits (['0999']) to [str(year)] (['999']),
    which has three at most, so no row is ever selected, the rows dated
    in that very month and year included.  The month is compared through
    the two-digit text on both sides, which is what the year needed
    too. *)
Theorem monthly_summary_blank_below_year_1000 (user_id_ month year : Z)
    (d : database) :
  0 <= year < 1000 ->
  Transaction.get_monthly_summary user_id_ month year d
  = Return (0%float, 0%float).
Proof.
  intros Hyear.
  assert (forall ty,
            Sql.fetchall
              (fun _ r => Transaction.monthly_where user_id_ ty
                            (format_0d 2 month) (py_str year) r)
              (db_transactions d) = []) as Hnone.
  { intros ty. unfold Sql.fetchall. apply filter_none. intros [k r].
    destruct (Sql.holds _) eqn:Hh; [|done]. exfalso.
    unfold Transaction.monthly_where in Hh. cbn [fst snd] in Hh.
    rewrite !holds_and, !holds_eq in Hh.
    destruct Hh as (_ & _ & _ & Hy). unfold Sql.strftime_Y in Hy.
    destruct (transactions.date r ≫= sqlite_date) as [[[y m] dd]|];
      [|discriminate].
    injection Hy as Hy. by apply (short_year_text year y Hyear). }
  unfold Transaction.get_monthly_summary, Transaction.monthly_total.
  rewrite !Hnone. reflexivity.
Qed.

End monthly.

Lemma monthly_summary_blank_below_year_1000_witness :
  0 <= 999 < 1000
  /\ exists r,
       Sql.rows (db_transactions year_999_ledger) !! 1 = Some r
       /\ transactions.user_id r = 1
       /\ transactions.transaction_type r = "income"
       /\ transactions.amount r = 100%float
       /\ falls_in (H := reference_runtime) 3 999 (transactions.date r)
       /\ @Transaction.get_monthly_summary reference_runtime 1 3 999
            year_999_ledger
          = Return (0%float, 0%float).
Proof.
  split; [lia|].
  eexists. split; [vm_compute; reflexivity|].
  split; [reflexivity|]. split; [reflexivity|]. split; [reflexivity|].
  split; [vm_compute; done|].
  apply (@monthly_summary_blank_below_year_1000 reference_runtime). lia.
Defined.



(** * Properties across calls *)

(** ** Scans in rowid order *)

Section scans.
Context {R : Type}.
Implicit Types (t : Sql.table R) (k : Z) (r : R).

Lemma rowid_le_transitive : Transitive (@Sql.rowid_le R).
Proof. intros a b c. unfold Sql.rowid_le. lia. Qed.

Lemma rowid_le_total : Total (@Sql.rowid_le R).
Proof. intros a b. unfold Sql.rowid_le. lia. Qed.

Lemma scan_sorted t : StronglySorted Sql.rowid_le (Sql.scan t).
Proof.
  apply (@StronglySorted_merge_sort _ _ _ rowid_le_transitive rowid_le_total).
Qed.

Lemma scan_Permutation t : Sql.scan t ≡ₚ map_to_list (Sql.rows t).
Proof. apply merge_sort_Permutation. Qed.

(** A table has one scan: the list of its rows sorted by rowid. *)
Lemma scan_unique t (l : list (Z * R)) :
  StronglySorted Sql.rowid_le l -> l ≡ₚ map_to_list (Sql.rows t) ->
  Sql.scan t = l.
Proof.
  intros Hsorted Hperm.
  apply (StronglySorted_unique_strong Sql.rowid_le).
  - intros [k1 r1] [k2 r2] H1 H2 Hle Hge. unfold Sql.rowid_le in *. cbn in *.
    assert (k1 = k2) as -> by lia.
    apply scan_lookup in H1. rewrite Hperm in H2.
    apply elem_of_map_to_list in H2. congruence.
  - apply scan_sorted.
  - exact Hsorted.
  - by rewrite Hperm, scan_Permutation.
Qed.

(** The row an INSERT adds comes last in the scan. *)
Lemma scan_insert r t :
  Sql.scan (Sql.insert r t).1 = Sql.scan t ++ [(Sql.next_rowid t, r)].
Proof.
  apply scan_unique.
  - apply StronglySorted_app_2.
    + intros [k1 r1] x2 H1 H2. apply list_elem_of_singleton in H2 as ->.
      apply scan_lookup, max_rowid_bound in H1.
      unfold Sql.rowid_le, Sql.next_rowid. cbn. lia.
    + apply scan_sorted.
    + repeat constructor.
  - cbn. rewrite map_to_list_insert by apply next_rowid_fresh.
    rewrite scan_Permutation. by rewrite Permutation_app_comm.
Qed.

(** An UPDATE rewrites its row in place. *)
Lemma scan_update (f : R -> R) k t :
  Sql.scan (Sql.update k f t)
  = map (fun kr => if decide (kr.1 = k) then (kr.1, f kr.2) else kr)
        (Sql.scan t).
Proof.
  set (g := fun kr : Z * R => if decide (kr.1 = k) then (kr.1, f kr.2) else kr).
  assert (forall l : list (Z * R), (g <$> l).*1 = l.*1) as Hfst.
  { intros l. rewrite <- list_fmap_compose. apply list_fmap_ext.
    intros _ [k' r'] _. unfold g. cbn. by case_decide. }
  change (map g (Sql.scan t)) with (g <$> Sql.scan t).
  apply scan_unique.
  - apply (StronglySorted_fmap _ Sql.rowid_le); [|apply scan_sorted].
    intros [k1 r1] [k2 r2]. unfold g, Sql.rowid_le. cbn.
    by repeat case_decide.
  - apply NoDup_Permutation.
    + apply (NoDup_fmap_1 fst). rewrite (Hfst (Sql.scan t)).
      rewrite scan_Permutation. apply NoDup_fst_map_to_list.
    + apply NoDup_map_to_list.
    + intros [k' r']. rewrite elem_of_map_to_list.
      rewrite (update_lookup f t k k'). rewrite list_elem_of_fmap. split.
      * intros ([k1 r1] & Heq & Hin). apply scan_lookup in Hin.
        unfold g in Heq. cbn in Heq. case_decide; simplify_eq.
        -- rewrite decide_True by done. by rewrite Hin.
        -- rewrite decide_False by done. done.
      * case_decide as Hk.
        -- subst k'. destruct (Sql.rows t !! k) as [old|] eqn:Hold; [|done].
           intros [= <-]. exists (k, old). unfold g. cbn.
           rewrite decide_True by done. split; [done|]. by apply scan_lookup.
        -- intros Hin. exists (k', r'). unfold g. cbn.
           rewrite decide_False by done. split; [done|]. by apply scan_lookup.
Qed.

Lemma fetchall_insert (c : Z -> R -> option bool) r t :
  Sql.fetchall c (Sql.insert r t).1
  = Sql.fetchall c t
    ++ (if Sql.holds (c (Sql.next_rowid t) r) then [(Sql.next_rowid t, r)]
        else []).
Proof.
  unfold Sql.fetchall. rewrite scan_insert, List.filter_app. cbn.
  by destruct (Sql.holds _).
Qed.


End scans.

(** ** Session identifiers *)

Lemma py_str_not_None (n : Z) : py_str n <> "None".
Proof.
  intros Hn. pose proof (decode_py_str n) as Hd. rewrite Hn in Hd.
  vm_compute in Hd. subst n. vm_compute in Hn. discriminate Hn.
Qed.

(** X3.  [get_id] tells users apart by their identifier: two records have
    the same [get_id()] text exactly when they have the same [id] (the
    text of an unset [id] is ['None'], which no number writes); and for
    a stored user the text is the decimal rowid, so that reading it back
    as a number and asking [get_by_id] returns that same user. *)
Theorem get_id_identifies_user :
  (forall u1 u2 : User.t,
     User.get_id u1 = User.get_id u2 <-> User.id u1 = User.id u2)
  /\ (forall (d : database) (k : Z) (r : users.row),
        Sql.rows (db_users d) !! k = Some r ->
        User.get_id (User.of_row k r) = py_str k
        /\ User.get_by_id (decode (User.get_id (User.of_row k r))) d
           = Return (Some (User.of_row k r))).
Proof.
  split.
  - intros u1 u2. unfold User.get_id. split; [|by intros ->].
    destruct (User.id u1) as [m|], (User.id u2) as [n|]; intros Heq.
    + f_equal. by rewrite <- (decode_py_str m), Heq, decode_py_str.
    + by apply py_str_not_None in Heq.
    + symmetry in Heq. by apply py_str_not_None in Heq.
    + done.
  - intros d k r Hk. split; [reflexivity|].
    change (User.get_id (User.of_row k r)) with (py_str k).
    by rewrite decode_py_str, User_get_by_id_row, Hk.
Qed.

(** ** Users by email and by username *)

Lemma taken_false (username_ email_ : string) (t : Sql.table users.row) :
  users.taken username_ email_ t = false <->
  (forall k r, Sql.rows t !! k = Some r ->
               users.username r <> username_ /\ users.email r <> email_).
Proof.
  unfold users.taken. split.
  - intros Hex k r Hk.
    apply scan_lookup, list_elem_of_In in Hk.
    destruct (bool_decide (users.username r = username_)) eqn:Hu;
      [|destruct (bool_decide (users.email r = email_)) eqn:He].
    + assert (existsb (fun kr : Z * users.row =>
                bool_decide (users.username kr.2 = username_)
                || bool_decide (users.email kr.2 = email_)) (Sql.scan t)
              = true) as Hyes.
      { apply existsb_exists. exists (k, r). cbn. by rewrite Hu. }
      congruence.
    + assert (existsb (fun kr : Z * users.row =>
                bool_decide (users.username kr.2 = username_)
                || bool_decide (users.email kr.2 = email_)) (Sql.scan t)
              = true) as Hyes.
      { apply existsb_exists. exists (k, r). cbn. by rewrite Hu, He. }
      congruence.
    + by apply bool_decide_eq_false in Hu, He.
  - intros Hall.
    destruct (existsb _ _) eqn:Hex; [|done].
    apply existsb_exists in Hex as ([k r] & Hin & Hm).
    apply list_elem_of_In, scan_lookup in Hin.
    destruct (Hall k r Hin) as [Hu He]. cbn in Hm.
    rewrite bool_decide_eq_false_2 in Hm by done.
    by rewrite bool_decide_eq_false_2 in Hm by done.
Qed.

Lemma get_by_email_hit (email_ : string) (d : database) (u : User.t) :
  User.get_by_email email_ d = Return (Some u) ->
  exists k r, Sql.rows (db_users d) !! k = Some r
              /\ users.email r = email_ /\ u = User.of_row k r.
Proof.
  unfold User.get_by_email.
  destruct (Sql.fetchone _ _) as [[k r]|] eqn:E; [|done].
  intros [= <-]. apply fetchone_Some in E as [Hk Hc].
  cbn in Hc. injection Hc as Hc. apply bool_decide_eq_true in Hc.
  by exists k, r.
Qed.

Lemma get_by_username_hit (username_ : string) (d : database) (u : User.t) :
  User.get_by_username username_ d = Return (Some u) ->
  exists k r, Sql.rows (db_users d) !! k = Some r
              /\ users.username r = username_ /\ u = User.of_row k r.
Proof.
  unfold User.get_by_username.
  destruct (Sql.fetchone _ _) as [[k r]|] eqn:E; [|done].
  intros [= <-]. apply fetchone_Some in E as [Hk Hc].
  cbn in Hc. injection Hc as Hc. apply bool_decide_eq_true in Hc.
  by exists k, r.
Qed.

Lemma get_by_email_found (d : database) (k : Z) (r : users.row) :
  Sql.rows (db_users d) !! k = Some r ->
  exists u, User.get_by_email (users.email r) d = Return (Some u).
Proof.
  intros Hk. unfold User.get_by_email.
  destruct (Sql.fetchone _ _) as [[k' r']|] eqn:E; [by eexists|].
  rewrite fetchone_None in E. destruct (E k r Hk).
  cbn. by rewrite bool_decide_eq_true_2.
Qed.

Lemma get_by_username_found (d : database) (k : Z) (r : users.row) :
  Sql.rows (db_users d) !! k = Some r ->
  exists u, User.get_by_username (users.username r) d = Return (Some u).
Proof.
  intros Hk. unfold User.get_by_username.
  destruct (Sql.fetchone _ _) as [[k' r']|] eqn:E; [by eexists|].
  rewrite fetchone_None in E. destruct (E k r Hk).
  cbn. by rewrite bool_decide_eq_true_2.
Qed.

(** X4.  A lookup by email or by username that finds a user returns a
    stored user whose email, respectively username, is the one asked
    for; it finds one whenever a row carries the key; and while the
    UNIQUE constraints hold, every stored user is the one found under
    its own email and under its own username. *)
Theorem lookup_hit_returns_matching_user (d : database) :
  (forall email_ u,
     User.get_by_email email_ d = Return (Some u) ->
     User.email u = Some email_
     /\ exists k r, Sql.rows (db_users d) !! k = Some r
                    /\ u = User.of_row k r)
  /\ (forall username_ u,
        User.get_by_username username_ d = Return (Some u) ->
        User.username u = Some username_
        /\ exists k r, Sql.rows (db_users d) !! k = Some r
                       /\ u = User.of_row k r)
  /\ (forall k r,
        Sql.rows (db_users d) !! k = Some r ->
        (exists u, User.get_by_email (users.email r) d = Return (Some u))
        /\ (exists u,
              User.get_by_username (users.username r) d = Return (Some u)))
  /\ (users_unique (db_users d) ->
      forall k r,
        Sql.rows (db_users d) !! k = Some r ->
        User.get_by_email (users.email r) d = Return (Some (User.of_row k r))
        /\ User.get_by_username (users.username r) d
           = Return (Some (User.of_row k r))).
Proof.
  split; [|split; [|split]].
  - intros e u (k & r & Hk & He & ->)%get_by_email_hit.
    split; [by rewrite <- He|by exists k, r].
  - intros n u (k & r & Hk & Hn & ->)%get_by_username_hit.
    split; [by rewrite <- Hn|by exists k, r].
  - intros k r Hk. split.
    + by apply (get_by_email_found d k).
    + by apply (get_by_username_found d k).
  - intros Huniq k r Hk. split.
    + destruct (get_by_email_found d k r Hk) as [u Hu]. rewrite Hu.
      apply get_by_email_hit in Hu as (k' & r' & Hk' & He & ->).
      assert (k' = k) as -> by (apply (Huniq k' k r' r); auto).
      by replace r' with r by congruence.
    + destruct (get_by_username_found d k r Hk) as [u Hu]. rewrite Hu.
      apply get_by_username_hit in Hu as (k' & r' & Hk' & Hn & ->).
      assert (k' = k) as -> by (apply (Huniq k' k r' r); auto).
      by replace r' with r by congruence.
Qed.

(** ** Registration, continued *)

Lemma users_unique_empty : users_unique (db_users empty_database).
Proof. intros k1 k2 r1 r2 Hk1. cbn in Hk1. by rewrite lookup_empty in Hk1. Qed.

Section registered.
Context `{Runtime}.

Lemma create_accepted (utcnow : Z)
    (now_text salt username_ email_ password full_name_ : string)
    (phone_ : option string) (d : database) :
  users.taken username_ email_ (db_users d) = false ->
  let k := Sql.next_rowid (db_users d) in
  let row :=
    users.mk_row username_ email_ (generate_password_hash salt password)
      full_name_ phone_ (Some now_text) (Some 1) (Some now_text)
      (Some (isoformat (wall (dt_add (naive utcnow) (timedelta_days 7)))))
      (Some "trial") (Some "trial") None in
  let d' := with_users d (Sql.insert row (db_users d)).1 in
  User.create utcnow now_text salt username_ email_ password full_name_
    phone_ d = Return (d', Some (User.of_row k row))
  /\ (forall k', Sql.rows (db_users d') !! k'
                 = if decide (k' = k) then Some row
                   else Sql.rows (db_users d) !! k').
Proof.
  intros Hfree k row d'. unfold User.create, users.insert. rewrite Hfree.
  cbn [mbind result_bind Sql.insert].
  assert (forall k', Sql.rows (db_users d') !! k'
                     = if decide (k' = k) then Some row
                       else Sql.rows (db_users d) !! k') as Hrows.
  { intros k'. apply (insert_lookup row (db_users d)). }
  split; [|exact Hrows].
  fold k. fold row. change (with_users d _) with d'.
  rewrite User_get_by_id_row, Hrows, decide_True by done. reflexivity.
Qed.

(** X5.  A registration the store accepts can be looked up at once:
    right after [create], [get_by_email] with the email and
    [get_by_username] with the username return the very user [create]
    returned.  It touches no other table and it keeps the UNIQUE
    constraints of [users] true; and a registration under the same
    username or the same email that comes next, on the store as this
    [create] left it, is refused with [IntegrityError]. *)
Theorem create_then_lookup (utcnow : Z)
    (now_text salt username_ email_ password full_name_ : string)
    (phone_ : option string) (d : database) :
  users.taken username_ email_ (db_users d) = false ->
  exists u d',
    User.create utcnow now_text salt username_ email_ password full_name_
      phone_ d = Return (d', Some u)
    /\ User.get_by_email email_ d' = Return (Some u)
    /\ User.get_by_username username_ d' = Return (Some u)
    /\ db_transactions d' = db_transactions d
    /\ db_accounts d' = db_accounts d
    /\ db_financial_goals d' = db_financial_goals d
    /\ (users_unique (db_users d) -> users_unique (db_users d'))
    /\ (forall utcnow' now_text' salt' username' email' password' full_name'
               phone',
          username' = username_ \/ email' = email_ ->
          User.create utcnow' now_text' salt' username' email' password'
            full_name' phone' d' = Raise IntegrityError).
Proof.
  intros Hfree.
  destruct (create_accepted utcnow now_text salt username_ email_ password
              full_name_ phone_ d Hfree) as [Hcreate Hrows].
  set (k := Sql.next_rowid (db_users d)) in *.
  set (row := users.mk_row _ _ _ _ _ _ _ _ _ _ _ _) in *.
  set (d' := with_users d _) in *.
  pose proof (proj1 (taken_false _ _ _) Hfree) as Hothers.
  assert (Sql.rows (db_users d') !! k = Some row) as Hk.
  { by rewrite Hrows, decide_True. }
  assert (forall k' r', Sql.rows (db_users d') !! k' = Some r' ->
            users.username r' = username_ \/ users.email r' = email_ ->
            k' = k /\ r' = row) as Hone.
  { intros k' r' Hk' Hsame. rewrite Hrows in Hk'.
    case_decide as Hkk; [by simplify_eq|].
    destruct (Hothers k' r' Hk') as [Hu He]. by destruct Hsame. }
  exists (User.of_row k row), d'. split; [exact Hcreate|].
  split; [|split; [|split; [|split; [|split; [|split]]]]];
    try reflexivity.
  - destruct (get_by_email_found d' k row Hk) as [u Hu].
    change (users.email row) with email_ in Hu. rewrite Hu.
    apply get_by_email_hit in Hu as (k' & r' & Hk' & He & ->).
    by destruct (Hone k' r' Hk' (or_intror He)) as [-> ->].
  - destruct (get_by_username_found d' k row Hk) as [u Hu].
    change (users.username row) with username_ in Hu. rewrite Hu.
    apply get_by_username_hit in Hu as (k' & r' & Hk' & Hn & ->).
    by destruct (Hone k' r' Hk' (or_introl Hn)) as [-> ->].
  - intros Huniq k1 k2 r1 r2 Hk1 Hk2 Hsame.
    pose proof Hk1 as Hk1'. pose proof Hk2 as Hk2'.
    rewrite Hrows in Hk1'. rewrite Hrows in Hk2'.
    destruct (decide (k1 = k)) as [->|Hne1], (decide (k2 = k)) as [->|Hne2];
      simplify_eq.
    + done.
    + destruct (Hone k2 r2 Hk2) as [? _]; [|done].
      destruct Hsame as [Hs|Hs]; [left|right]; by rewrite <- Hs.
    + destruct (Hone k1 r1 Hk1) as [? _]; [|done].
      destruct Hsame as [Hs|Hs]; [left|right]; by rewrite Hs.
    + by apply (Huniq k1 k2 r1 r2).
  - intros utcnow' now_text' salt' username' email' password' full_name'
      phone' Hsame.
    unfold User.create, users.insert.
    destruct (users.taken username' email' (db_users d')) eqn:Htaken;
      [done|].
    destruct (proj1 (taken_false _ _ _) Htaken k row Hk) as [Hu He].
    by destruct Hsame as [->| ->].
Qed.

(** X6.  The user a registration returns starts on the free trial and is
    let in: the account is active, plan and status are ['trial'],
    [get_plan_features] gives the trial entry with its cap of 10
    transactions, and (the end date read back as written) the
    subscription counts as active at every clock reading up to and
    including seven days after the registration, and at none after. *)
Theorem created_user_is_on_trial (utcnow : Z)
    (now_text salt username_ email_ password full_name_ : string)
    (phone_ : option string) (d d' : database) (u : User.t) :
  User.create utcnow now_text salt username_ email_ password full_name_
    phone_ d = Return (d', Some u) ->
  User.is_active u = true
  /\ User.subscription_plan u = "trial"
  /\ User.subscription_status u = "trial"
  /\ User.get_plan_features u
     = mk_plan_features "Teste Grátis" 10 false false false
  /\ User.subscription_end_date u = None
  /\ User.trial_start_date u = Some now_text
  /\ (naive_instant (Some (isoformat (utcnow + 7 * 86400 * 1000000)))
      = Some (utcnow + 7 * 86400 * 1000000) ->
      forall t, User.is_subscription_active t u
                = Return (Bool (t <=? utcnow + 7 * 86400 * 1000000))).
Proof.
  intros Hcreate.
  destruct (users.taken username_ email_ (db_users d)) eqn:Hfree.
  { unfold User.create, users.insert in Hcreate. by rewrite Hfree in Hcreate. }
  destruct (create_accepted utcnow now_text salt username_ email_ password
              full_name_ phone_ d Hfree) as [Hc _].
  rewrite Hc in Hcreate. injection Hcreate as _ <-.
  split; [reflexivity|]. split; [reflexivity|]. split; [reflexivity|].
  split; [reflexivity|]. split; [reflexivity|]. split; [reflexivity|].
  intros Hread t. unfold User.is_subscription_active.
  cbn [User.subscription_status User.of_row User.__init__ str_or
       users.subscription_status].
  rewrite bool_decide_eq_true_2 by done.
  rewrite (is_trial_expired_naive t (utcnow + 7 * 86400 * 1000000)).
  - cbn. do 2 f_equal. lia.
  - exact Hread.
Qed.

End registered.

(** ** Saving twice *)

Lemma update_update {R : Type} (f : R -> R) (k : Z) (t : Sql.table R) :
  (forall r, f (f r) = f r) ->
  Sql.update k f (Sql.update k f t) = Sql.update k f t.
Proof.
  intros Hf. unfold Sql.update. cbn. f_equal. apply map_eq. intros i.
  destruct (decide (i = k)) as [->|Hne].
  - rewrite !lookup_alter_eq. destruct (Sql.rows t !! k); cbn; [|done].
    by rewrite Hf.
  - by rewrite !lookup_alter_ne.
Qed.

Lemma update_inserted {R : Type} (f : R -> R) (r : R) (k s : Z)
    (m : gmap Z R) :
  f r = r ->
  Sql.update k f (Sql.mk_table (<[k := r]> m) s)
  = Sql.mk_table (<[k := r]> m) s.
Proof.
  intros Hf. unfold Sql.update. cbn. f_equal.
  apply map_eq. intros i.
  destruct (decide (i = k)) as [->|Hne].
  - rewrite lookup_alter_eq, lookup_insert_eq. cbn. by rewrite Hf.
  - by rewrite lookup_alter_ne.
Qed.

Lemma nonzero_next_rowid {R : Type} (t : Sql.table R) :
  nonzero (Some (Sql.next_rowid t)) = Some (Sql.next_rowid t).
Proof.
  cbn. destruct (Sql.next_rowid t =? 0) eqn:E; [|done].
  apply Z.eqb_eq in E. by apply next_rowid_nonzero in E.
Qed.

Lemma Transaction_save_idempotent : save_idempotent Transaction.save.
Proof.
  intros ts ts' self saved d d'. unfold Transaction.save.
  destruct (nonzero (Transaction.id self)) as [k|] eqn:Hid.
  - unfold transactions.update.
    destruct (Sql.rows (db_transactions d) !! k) as [old|] eqn:Hold.
    + destruct (Transaction.description self) as [ds|] eqn:Hds; [|done].
      destruct (Sql.bind_real (Transaction.amount self)) as [a|] eqn:Ha;
        [|done].
      destruct (Transaction.transaction_type self) as [ty|] eqn:Hty; [|done].
      cbn. intros [= <- <-]. rewrite Hid, Hds, Ha, Hty.
      cbn [db_transactions with_transactions].
      rewrite update_lookup, decide_True, Hold by done. cbn.
      by rewrite update_update.
    + cbn. intros [= <- <-]. rewrite Hid. cbn. by rewrite Hold.
  - unfold transactions.insert.
    destruct (Transaction.user_id self) as [u|] eqn:Hu; [|done].
    destruct (Transaction.description self) as [ds|] eqn:Hds; [|done].
    destruct (Sql.bind_real (Transaction.amount self)) as [a|] eqn:Ha;
      [|done].
    destruct (Transaction.transaction_type self) as [ty|] eqn:Hty; [|done].
    cbn [mbind result_bind]. intros [= <- <-].
    cbn [Transaction.id Transaction.set_id Sql.insert snd].
    rewrite nonzero_next_rowid.
    cbn [Transaction.description Transaction.amount Transaction.set_id
         Transaction.transaction_type Transaction.category Transaction.date
         Transaction.is_recurring Transaction.recurrence_type
         Transaction.account_id].
    rewrite Hds, Ha, Hty. unfold transactions.update.
    cbn [db_transactions with_transactions Sql.rows].
    rewrite lookup_insert_eq. cbn [mbind result_bind].
    rewrite update_inserted by reflexivity. reflexivity.
Qed.

Lemma Account_save_idempotent : save_idempotent Account.save.
Proof.
  intros ts ts' self saved d d'. unfold Account.save.
  destruct (nonzero (Account.id self)) as [k|] eqn:Hid.
  - unfold accounts.update.
    destruct (Sql.rows (db_accounts d) !! k) as [old|] eqn:Hold.
    + destruct (Account.name self) as [n|] eqn:Hn; [|done].
      destruct (Account.account_type self) as [ty|] eqn:Hty; [|done].
      cbn. intros [= <- <-]. rewrite Hid, Hn, Hty.
      cbn [db_accounts with_accounts].
      rewrite update_lookup, decide_True, Hold by done. cbn.
      by rewrite update_update.
    + cbn. intros [= <- <-]. rewrite Hid. cbn. by rewrite Hold.
  - unfold accounts.insert.
    destruct (Account.user_id self) as [u|] eqn:Hu; [|done].
    destruct (Account.name self) as [n|] eqn:Hn; [|done].
    destruct (Account.account_type self) as [ty|] eqn:Hty; [|done].
    cbn [mbind result_bind]. intros [= <- <-].
    cbn [Account.id Account.set_id Sql.insert snd].
    rewrite nonzero_next_rowid.
    cbn [Account.name Account.account_type Account.amount Account.due_date
         Account.status Account.set_id].
    rewrite Hn, Hty. unfold accounts.update.
    cbn [db_accounts with_accounts Sql.rows].
    rewrite lookup_insert_eq. cbn [mbind result_bind].
    rewrite update_inserted by reflexivity. reflexivity.
Qed.

Lemma FinancialGoal_save_idempotent : save_idempotent FinancialGoal.save.
Proof.
  intros ts ts' self saved d d'. unfold FinancialGoal.save.
  destruct (nonzero (FinancialGoal.id self)) as [k|] eqn:Hid.
  - unfold financial_goals.update.
    destruct (Sql.rows (db_financial_goals d) !! k) as [old|] eqn:Hold.
    + destruct (FinancialGoal.title self) as [ti|] eqn:Hti; [|done].
      destruct (Sql.bind_real (FinancialGoal.target_amount self))
        as [ta|] eqn:Hta; [|done].
      cbn. intros [= <- <-]. rewrite Hid, Hti, Hta.
      cbn [db_financial_goals with_financial_goals].
      rewrite update_lookup, decide_True, Hold by done. cbn.
      by rewrite update_update.
    + cbn. intros [= <- <-]. rewrite Hid. cbn. by rewrite Hold.
  - unfold financial_goals.insert.
    destruct (FinancialGoal.user_id self) as [u|] eqn:Hu; [|done].
    destruct (FinancialGoal.title self) as [ti|] eqn:Hti; [|done].
    destruct (Sql.bind_real (FinancialGoal.target_amount self))
      as [ta|] eqn:Hta; [|done].
    cbn [mbind result_bind]. intros [= <- <-].
    cbn [FinancialGoal.id FinancialGoal.set_id Sql.insert snd].
    rewrite nonzero_next_rowid.
    cbn [FinancialGoal.title FinancialGoal.target_amount
         FinancialGoal.current_amount FinancialGoal.target_date
         FinancialGoal.is_completed FinancialGoal.set_id].
    rewrite Hti, Hta. unfold financial_goals.update.
    cbn [db_financial_goals with_financial_goals Sql.rows].
    rewrite lookup_insert_eq. cbn [mbind result_bind].
    rewrite update_inserted by reflexivity. reflexivity.
Qed.

(** X7.  Saving twice is saving once.  For every Transaction, Account
    and FinancialGoal: when [save] returns, saving the record it
    returned again, at any later time, returns that same record and
    leaves the whole store exactly as the first [save] left it; no
    second row appears and no column changes. *)
Theorem save_again_changes_nothing :
  save_idempotent Transaction.save
  /\ save_idempotent Account.save
  /\ save_idempotent FinancialGoal.save.
Proof.
  split; [|split].
  - exact Transaction_save_idempotent.
  - exact Account_save_idempotent.
  - exact FinancialGoal_save_idempotent.
Qed.

Lemma save_again_changes_nothing_witness :
  exists d' saved,
    Account.save sample_now_text sample_account empty_database
    = Return (d', saved)
    /\ Account.id saved = Some 1
    /\ Account.save "2024-03-16 08:00:00" saved d' = Return (d', saved).
Proof.
  destruct save_again_changes_nothing as (_ & Hacc & _).
  eexists _, _. split; [vm_compute; reflexivity|].
  split; [reflexivity|].
  apply (Hacc sample_now_text _ sample_account _ empty_database).
  vm_compute. reflexivity.
Defined.

(** ** Counting a user's transactions *)




(** ** Aggregates after a save *)




Section monthly_saves.
Context `{Runtime}.


End monthly_saves.

(** ** Listing a user's records *)

(** The records a fetch builds from the selected rows. *)
Lemma elem_of_records {R T : Type} (of_row : Z -> R -> T)
    (c : Z -> R -> option bool) (t : Sql.table R) (x : T) :
  x ∈ map (fun kr => of_row kr.1 kr.2) (Sql.fetchall c t)
  <-> exists k r, Sql.rows t !! k = Some r /\ c k r = Some true
                  /\ x = of_row k r.
Proof.
  change (map ?f ?l) with (f <$> l). rewrite list_elem_of_fmap. split.
  - intros ([k r] & -> & Hin). apply fetchall_elem in Hin as [Hk Hc].
    by exists k, r.
  - intros (k & r & Hk & Hc & ->). exists (k, r). split; [done|].
    by apply fetchall_elem.
Qed.

Lemma holds_true (c : option bool) : Sql.holds c = true <-> c = Some true.
Proof. destruct c as [[]|]; cbn; split; congruence. Qed.



Lemma Account_get_by_user_id_elem (user_id_ : Z)
    (account_type_ : option string) (d : database) :
  exists l,
    Account.get_by_user_id user_id_ account_type_ d = Return l
    /\ forall a,
         a ∈ l <->
         exists k r,
           Sql.rows (db_accounts d) !! k = Some r
           /\ accounts.user_id r = user_id_
           /\ (truthy_str account_type_ = true ->
               account_type_ = Some (accounts.account_type r))
           /\ a = Account.of_row k r.
Proof.
  eexists. split; [reflexivity|]. intros a.
  destruct account_type_ as [[|c s]|]; rewrite elem_of_records;
    setoid_rewrite <- holds_true;
    repeat setoid_rewrite holds_and; repeat setoid_rewrite holds_eq; cbn [truthy_str];
    split; intros (k & r & Hk & Hrest); exists k, r; (split; [done|]).
  - destruct Hrest as [[= Hu] Ha]. done.
  - destruct Hrest as (Hu & _ & Ha). by rewrite Hu.
  - destruct Hrest as [[[= Hu] [= Ht]] Ha]. rewrite Ht. done.
  - destruct Hrest as (Hu & Ht & Ha). specialize (Ht eq_refl).
    injection Ht as Ht. by rewrite Hu, <- Ht.
  - destruct Hrest as [[= Hu] Ha]. done.
  - destruct Hrest as (Hu & _ & Ha). by rewrite Hu.
Qed.


(** ** The ownership check of [Account.get_by_id] *)

Lemma Account_get_by_id_hit (account_id : Z) (user_id_ : option Z)
    (d : database) (a : Account.t) :
  Account.get_by_id account_id user_id_ d = Return (Some a)
  <-> exists r,
        Sql.rows (db_accounts d) !! account_id = Some r
        /\ a = Account.of_row account_id r
        /\ (forall u, nonzero user_id_ = Some u -> accounts.user_id r = u).
Proof.
  unfold Account.get_by_id. destruct (nonzero user_id_) as [u|].
  - unfold Sql.execute_fetchone.
    destruct (Sql.fetchone _ (db_accounts d)) as [[k r]|] eqn:E.
    + apply fetchone_Some in E as [Hk Hc].
      apply holds_true in Hc. rewrite holds_and, !holds_eq in Hc.
      destruct Hc as [[= ->] [= Hu]]. cbn [mbind result_bind]. split.
      * intros [= <-]. exists r. split; [done|]. split; [done|].
        by intros ? [= <-].
      * intros (r' & Hk' & -> & _). by simplify_eq.
    + split; [by destruct (forallb _ _)|]. intros (r & Hk & _ & Hu).
      rewrite fetchone_None in E. destruct (E account_id r Hk).
      apply holds_true. rewrite holds_and, !holds_eq.
      by rewrite (Hu u eq_refl).
  - rewrite execute_fetchone_by_id.
    destruct (Sql.rows (db_accounts d) !! account_id) as [r|];
      cbn [mbind result_bind].
    + split.
      * intros [= <-]. exists r. by repeat split.
      * intros (r' & [= <-] & -> & _). done.
    + split; [by destruct (decide _)|]. by intros (r & ? & _).
Qed.

(** X12.  [Account.get_by_id] with a user filter returns an account only
    to its owner: a hit is the stored account under that identifier, and
    with a filter that counts (a user id other than [None] and 0) the
    account's [user_id] is the one given, so that the accounts one can
    fetch under a user's filter are exactly those [get_by_user_id] lists
    for that user.  A filter of 0 counts as no filter: it returns the
    account whoever owns it. *)
Theorem account_lookup_checks_owner (account_id : Z) (d : database) :
  (forall user_id_ a,
     Account.get_by_id account_id user_id_ d = Return (Some a)
     <-> exists r,
           Sql.rows (db_accounts d) !! account_id = Some r
           /\ a = Account.of_row account_id r
           /\ (forall u, nonzero user_id_ = Some u ->
                         accounts.user_id r = u))
  /\ (forall u a,
        u <> 0 ->
        Account.get_by_id account_id (Some u) d = Return (Some a) ->
        Account.user_id a = Some u)
  /\ (forall u a,
        u <> 0 ->
        Account.get_by_id account_id (Some u) d = Return (Some a)
        <-> exists l,
              Account.get_by_user_id u None d = Return l
              /\ a ∈ l /\ Account.id a = Some account_id)
  /\ Account.get_by_id account_id (Some 0) d
     = Account.get_by_id account_id None d.
Proof.
  assert (forall u, u <> 0 -> nonzero (Some u) = Some u) as Hnz.
  { intros u Hu. cbn. by rewrite (proj2 (Z.eqb_neq u 0) Hu). }
  split; [|split; [|split]].
  - intros user_id_ a. apply Account_get_by_id_hit.
  - intros u a Hu (r & Hk & -> & Hown)%Account_get_by_id_hit.
    cbn. by rewrite (Hown u (Hnz u Hu)).
  - intros u a Hu. rewrite Account_get_by_id_hit.
    destruct (Account_get_by_user_id_elem u None d) as [l [Hl Helem]].
    split.
    + intros (r & Hk & -> & Hown). exists l. split; [done|].
      split; [|done]. apply Helem. exists account_id, r.
      split; [done|]. split; [by apply Hown, Hnz|]. by split.
    + intros (l' & Hl' & Hin & Hid). rewrite Hl in Hl'. injection Hl' as <-.
      apply Helem in Hin as (k & r & Hk & Hu' & _ & ->).
      cbn in Hid. injection Hid as ->. exists r. split; [done|].
      split; [done|]. intros u' Hu''. rewrite (Hnz u Hu) in Hu''.
      by simplify_eq.
  - reflexivity.
Qed.

(** ** Goals by completion *)




(** ** Listing transactions *)



(** ** Listings after a save *)

Lemma records_insert {R T : Type} (of_row : Z -> R -> T)
    (c : Z -> R -> option bool) (P : Prop) `{Decision P} (r : R)
    (t : Sql.table R) :
  (c (Sql.next_rowid t) r = Some true <-> P) ->
  map (fun kr => of_row kr.1 kr.2) (Sql.fetchall c (Sql.insert r t).1)
  = let l := map (fun kr => of_row kr.1 kr.2) (Sql.fetchall c t) in
    if decide P then l ++ [of_row (Sql.next_rowid t) r] else l.
Proof.
  intros Hc. rewrite fetchall_insert, map_app. cbn zeta.
  rewrite <- holds_true in Hc. case_decide as Hp.
  - by rewrite (proj2 Hc Hp).
  - destruct (Sql.holds _); [by destruct Hp; apply Hc|]. cbn.
    by rewrite app_nil_r.
Qed.

(** X15.  A new record is listed at once, last, and only for its owner.
    When [save] inserts an account or a goal (no identifier set), every
    [get_by_user_id] listing afterwards is the listing before, followed
    by the new record if its [user_id] is the one asked for and it
    passes the narrowing (account type, completion flag), and exactly
    the listing before otherwise.  The record listed is the one a reload
    by the new identifier gives: the saved record with [created_at]
    filled in by the store, when the record was built by the
    constructor. *)
Theorem new_record_is_listed_last (now_text : string) (d d' : database) :
  (forall self saved,
     nonzero (Account.id self) = None ->
     Account.save now_text self d = Return (d', saved) ->
     exists k new,
       Account.id saved = Some k
       /\ Account.get_by_id k None d' = Return (Some new)
       /\ (AccountSpec.faithful self ->
           new = AccountSpec.with_stored saved (Account.user_id saved)
                   (Some now_text))
       /\ forall user_id_ account_type_,
            Account.get_by_user_id user_id_ account_type_ d'
            = (l ← Account.get_by_user_id user_id_ account_type_ d;
               Return
                 (if decide (Account.user_id self = Some user_id_
                             /\ (truthy_str account_type_ = true ->
                                 Account.account_type self = account_type_))
                  then l ++ [new] else l)))
  /\ (forall self saved,
        nonzero (FinancialGoal.id self) = None ->
        FinancialGoal.save now_text self d = Return (d', saved) ->
        exists k new,
          FinancialGoal.id saved = Some k
          /\ FinancialGoalSpec.reload k d' = Return (Some new)
          /\ (FinancialGoalSpec.faithful self ->
              new = FinancialGoalSpec.with_stored saved
                      (FinancialGoal.user_id saved) (Some now_text))
          /\ forall user_id_ is_completed_,
               FinancialGoal.get_by_user_id user_id_ is_completed_ d'
               = (l ← FinancialGoal.get_by_user_id user_id_ is_completed_ d;
                  Return
                    (if decide (FinancialGoal.user_id self = Some user_id_
                                /\ (forall b, is_completed_ = Some b ->
                                      FinancialGoal.is_completed self = b))
                     then l ++ [new] else l))).
Proof.
  split.
  - intros self saved Hid. unfold Account.save. rewrite Hid.
    unfold accounts.insert.
    destruct (Account.user_id self) as [u0|] eqn:Hu; [|done].
    destruct (Account.name self) as [n|] eqn:Hn; [|done].
    destruct (Account.account_type self) as [ty0|] eqn:Hty; [|done].
    cbn [mbind result_bind].
    set (row := accounts.mk_row _ _ _ _ _ _ _).
    destruct (Sql.insert row (db_accounts d)) as [tbl k] eqn:Hins.
    intros [= <- <-].
    assert (k = Sql.next_rowid (db_accounts d)) as Hk
      by (by injection Hins as _ <-).
    assert (tbl = (Sql.insert row (db_accounts d)).1) as Htbl
      by (by rewrite Hins).
    exists k, (Account.of_row k row). split; [reflexivity|]. split; [|split].
    + rewrite Account_get_by_id_row. cbn [db_accounts with_accounts].
      by rewrite Htbl, insert_lookup, decide_True.
    + intros Hf.
      rewrite (Account_of_row_written self k row Hf).
      * cbn. by rewrite Hu.
      * unfold AccountSpec.written, row. cbn. by rewrite Hn, Hty.
    + intros u oty. unfold Account.get_by_user_id.
      cbn [mbind result_bind db_accounts with_accounts]. f_equal.
      rewrite Htbl, Hk.
      destruct oty as [[|c s]|]; cbn [truthy_str];
        (erewrite records_insert; [reflexivity|]);
        rewrite <- holds_true, ?holds_and, !holds_eq; cbn.
      * split; [by intros [= ->]|by intros [[= ->] _]].
      * split; [by intros [[= ->] [= ->]]|].
        intros [[= ->] Ht]. specialize (Ht eq_refl). by simplify_eq.
      * split; [by intros [= ->]|by intros [[= ->] _]].
  - intros self saved Hid. unfold FinancialGoal.save. rewrite Hid.
    unfold financial_goals.insert.
    destruct (FinancialGoal.user_id self) as [u0|] eqn:Hu; [|done].
    destruct (FinancialGoal.title self) as [ti|] eqn:Hti; [|done].
    destruct (Sql.bind_real (FinancialGoal.target_amount self)) as [ta|]
      eqn:Hta; [|done].
    cbn [mbind result_bind].
    set (row := financial_goals.mk_row _ _ _ _ _ _ _).
    destruct (Sql.insert row (db_financial_goals d)) as [tbl k] eqn:Hins.
    intros [= <- <-].
    assert (k = Sql.next_rowid (db_financial_goals d)) as Hk
      by (by injection Hins as _ <-).
    assert (tbl = (Sql.insert row (db_financial_goals d)).1) as Htbl
      by (by rewrite Hins).
    exists k, (FinancialGoal.of_row k row).
    split; [reflexivity|]. split; [|split].
    + unfold FinancialGoalSpec.reload.
      cbn [db_financial_goals with_financial_goals].
      by rewrite Htbl, insert_lookup, decide_True.
    + intros Hf.
      rewrite (FinancialGoal_of_row_written self k row Hf).
      * cbn. by rewrite Hu.
      * unfold FinancialGoalSpec.written, row. cbn. rewrite Hti.
        unfold Sql.bind_real in Hta.
        destruct (PrimFloat.is_nan _); by simplify_eq.
    + intros u ob. unfold FinancialGoal.get_by_user_id.
      cbn [mbind result_bind db_financial_goals with_financial_goals].
      f_equal. rewrite Htbl, Hk.
      destruct ob as [b|];
        (erewrite records_insert; [reflexivity|]);
        rewrite <- holds_true, ?holds_and; unfold Sql.bind_bool, row;
        cbn [financial_goals.is_completed financial_goals.user_id];
        rewrite !holds_eq.
      * split.
        -- intros [[= ->] Hb]. split; [done|]. intros b' [= <-].
           by destruct b, (FinancialGoal.is_completed self).
        -- intros [[= ->] Hb]. by rewrite (Hb b eq_refl).
      * split; [by intros [= ->]|by intros [[= ->] _]].
Qed.

(** ** Saves stay with their user *)

(** An UPDATE of a row the WHERE clause rejects before and after selects
    the same rows. *)
Lemma fetchall_update_skip {R : Type} (c : Z -> R -> option bool)
    (f : R -> R) (k : Z) (t : Sql.table R) :
  (forall r, Sql.rows t !! k = Some r ->
             Sql.holds (c k r) = false /\ Sql.holds (c k (f r)) = false) ->
  Sql.fetchall c (Sql.update k f t) = Sql.fetchall c t.
Proof.
  intros Hskip. unfold Sql.fetchall. rewrite scan_update.
  assert (forall k' r', (k', r') ∈ Sql.scan t ->
                        Sql.rows t !! k' = Some r') as Hin.
  { intros k' r'. apply scan_lookup. }
  induction (Sql.scan t) as [|[k' r'] l IH]; [done|].
  assert (Sql.rows t !! k' = Some r') as Hk'.
  { apply Hin. apply list_elem_of_here. }
  assert (forall k'' r'', (k'', r'') ∈ l -> Sql.rows t !! k'' = Some r'')
    as Hin'.
  { intros k'' r'' Hl. apply Hin. by apply list_elem_of_further. }
  cbn. case_decide as Hk; cbn.
  - subst k'. destruct (Hskip r' Hk') as [-> ->]. by apply IH.
  - destruct (Sql.holds (c k' r')); [f_equal|]; by apply IH.
Qed.

Lemma fetchall_insert_skip {R : Type} (c : Z -> R -> option bool) (r : R)
    (t : Sql.table R) :
  Sql.holds (c (Sql.next_rowid t) r) = false ->
  Sql.fetchall c (Sql.insert r t).1 = Sql.fetchall c t.
Proof. intros Hc. by rewrite fetchall_insert, Hc, app_nil_r. Qed.

(** A WHERE clause that asks for the user rejects the rows of others. *)
Lemma holds_and_user {A : Type} `{EqDecision A} (x y : A)
    (rest : option bool) :
  x <> y -> Sql.holds (Sql.and (Sql.eq (Some x) (Some y)) rest) = false.
Proof.
  intros Hne. cbn. rewrite bool_decide_eq_false_2 by done.
  by destruct rest as [[]|].
Qed.

Lemma holds_user {A : Type} `{EqDecision A} (x y : A) :
  x <> y -> Sql.holds (Sql.eq (Some x) (Some y)) = false.
Proof. intros Hne. cbn. by rewrite bool_decide_eq_false_2. Qed.

Lemma Transaction_save_fetchall (now_text : string)
    (self saved : Transaction.t) (d d' : database) (u : Z)
    (c : Z -> transactions.row -> option bool) :
  Transaction.save now_text self d = Return (d', saved) ->
  written_user (Transaction.id self) (Transaction.user_id self)
    (fun k => transactions.user_id <$> Sql.rows (db_transactions d) !! k)
  <> Some u ->
  (forall k r, transactions.user_id r <> u -> Sql.holds (c k r) = false) ->
  Sql.fetchall c (db_transactions d') = Sql.fetchall c (db_transactions d).
Proof.
  unfold Transaction.save, written_user. intros Hsave Hother Hc.
  destruct (nonzero (Transaction.id self)) as [k|].
  - unfold transactions.update in Hsave.
    destruct (Sql.rows (db_transactions d) !! k) as [old|] eqn:Hold.
    + destruct (Transaction.description self) as [ds|]; [|done].
      destruct (Sql.bind_real (Transaction.amount self)) as [a|]; [|done].
      destruct (Transaction.transaction_type self) as [ty|]; [|done].
      cbn in Hsave, Hother. injection Hsave as <- <-.
      cbn [db_transactions with_transactions].
      apply fetchall_update_skip. intros r Hr. simplify_eq.
      split; apply Hc; cbn; congruence.
    + cbn in Hsave. by injection Hsave as <- <-.
  - unfold transactions.insert in Hsave.
    destruct (Transaction.user_id self) as [u0|]; [|done].
    destruct (Transaction.description self) as [ds|]; [|done].
    destruct (Sql.bind_real (Transaction.amount self)) as [a|]; [|done].
    destruct (Transaction.transaction_type self) as [ty|]; [|done].
    cbn [mbind result_bind] in Hsave.
    set (row := transactions.mk_row _ _ _ _ _ _ _ _ _ _) in Hsave.
    destruct (Sql.insert row (db_transactions d)) as [tbl k] eqn:Hins.
    injection Hsave as <- <-. cbn [db_transactions with_transactions].
    replace tbl with (Sql.insert row (db_transactions d)).1
      by (by rewrite Hins).
    apply fetchall_insert_skip, Hc. cbn. congruence.
Qed.

Lemma Account_save_fetchall (now_text : string)
    (self saved : Account.t) (d d' : database) (u : Z)
    (c : Z -> accounts.row -> option bool) :
  Account.save now_text self d = Return (d', saved) ->
  written_user (Account.id self) (Account.user_id self)
    (fun k => accounts.user_id <$> Sql.rows (db_accounts d) !! k)
  <> Some u ->
  (forall k r, accounts.user_id r <> u -> Sql.holds (c k r) = false) ->
  Sql.fetchall c (db_accounts d') = Sql.fetchall c (db_accounts d).
Proof.
  unfold Account.save, written_user. intros Hsave Hother Hc.
  destruct (nonzero (Account.id self)) as [k|].
  - unfold accounts.update in Hsave.
    destruct (Sql.rows (db_accounts d) !! k) as [old|] eqn:Hold.
    + destruct (Account.name self) as [n|]; [|done].
      destruct (Account.account_type self) as [ty|]; [|done].
      cbn in Hsave, Hother. injection Hsave as <- <-.
      cbn [db_accounts with_accounts].
      apply fetchall_update_skip. intros r Hr. simplify_eq.
      split; apply Hc; cbn; congruence.
    + cbn in Hsave. by injection Hsave as <- <-.
  - unfold accounts.insert in Hsave.
    destruct (Account.user_id self) as [u0|]; [|done].
    destruct (Account.name self) as [n|]; [|done].
    destruct (Account.account_type self) as [ty|]; [|done].
    cbn [mbind result_bind] in Hsave.
    set (row := accounts.mk_row _ _ _ _ _ _ _) in Hsave.
    destruct (Sql.insert row (db_accounts d)) as [tbl k] eqn:Hins.
    injection Hsave as <- <-. cbn [db_accounts with_accounts].
    replace tbl with (Sql.insert row (db_accounts d)).1
      by (by rewrite Hins).
    apply fetchall_insert_skip, Hc. cbn. congruence.
Qed.

Lemma FinancialGoal_save_fetchall (now_text : string)
    (self saved : FinancialGoal.t) (d d' : database) (u : Z)
    (c : Z -> financial_goals.row -> option bool) :
  FinancialGoal.save now_text self d = Return (d', saved) ->
  written_user (FinancialGoal.id self) (FinancialGoal.user_id self)
    (fun k => financial_goals.user_id
              <$> Sql.rows (db_financial_goals d) !! k)
  <> Some u ->
  (forall k r, financial_goals.user_id r <> u -> Sql.holds (c k r) = false) ->
  Sql.fetchall c (db_financial_goals d')
  = Sql.fetchall c (db_financial_goals d).
Proof.
  unfold FinancialGoal.save, written_user. intros Hsave Hother Hc.
  destruct (nonzero (FinancialGoal.id self)) as [k|].
  - unfold financial_goals.update in Hsave.
    destruct (Sql.rows (db_financial_goals d) !! k) as [old|] eqn:Hold.
    + destruct (FinancialGoal.title self) as [ti|]; [|done].
      destruct (Sql.bind_real (FinancialGoal.target_amount self)) as [ta|];
        [|done].
      cbn in Hsave, Hother. injection Hsave as <- <-.
      cbn [db_financial_goals with_financial_goals].
      apply fetchall_update_skip. intros r Hr. simplify_eq.
      split; apply Hc; cbn; congruence.
    + cbn in Hsave. by injection Hsave as <- <-.
  - unfold financial_goals.insert in Hsave.
    destruct (FinancialGoal.user_id self) as [u0|]; [|done].
    destruct (FinancialGoal.title self) as [ti|]; [|done].
    destruct (Sql.bind_real (FinancialGoal.target_amount self)) as [ta|];
      [|done].
    cbn [mbind result_bind] in Hsave.
    set (row := financial_goals.mk_row _ _ _ _ _ _ _) in Hsave.
    destruct (Sql.insert row (db_financial_goals d)) as [tbl k] eqn:Hins.
    injection Hsave as <- <-. cbn [db_financial_goals with_financial_goals].
    replace tbl with (Sql.insert row (db_financial_goals d)).1
      by (by rewrite Hins).
    apply fetchall_insert_skip, Hc. cbn. congruence.
Qed.

Section isolation.
Context `{Runtime}.

(** X16.  A [save] shows only in the figures of the user whose row it
    writes (the record's [user_id] on an insert; on an update the
    [user_id] of the stored row, which the UPDATE never changes).  For
    every other user, whatever the record says: after a
    [Transaction.save] the count, every monthly summary and every
    listing of transactions are as before; after an [Account.save] every
    listing of accounts and every pending total; after a
    [FinancialGoal.save] every listing of goals. *)
Theorem saves_stay_with_their_user (now_text : string) (d d' : database)
    (user_id_ : Z) :
  (forall self saved,
     Transaction.save now_text self d = Return (d', saved) ->
     written_user (Transaction.id self) (Transaction.user_id self)
       (fun k => transactions.user_id <$> Sql.rows (db_transactions d) !! k)
     <> Some user_id_ ->
     Transaction.count_by_user_id user_id_ d'
     = Transaction.count_by_user_id user_id_ d
     /\ (forall month year,
           Transaction.get_monthly_summary user_id_ month year d'
           = Transaction.get_monthly_summary user_id_ month year d)
     /\ (forall order_rows limit order_by,
           Transaction.get_by_user_id order_rows user_id_ limit order_by d'
           = Transaction.get_by_user_id order_rows user_id_ limit order_by d))
  /\ (forall self saved,
        Account.save now_text self d = Return (d', saved) ->
        written_user (Account.id self) (Account.user_id self)
          (fun k => accounts.user_id <$> Sql.rows (db_accounts d) !! k)
        <> Some user_id_ ->
        (forall account_type_,
           Account.get_by_user_id user_id_ account_type_ d'
           = Account.get_by_user_id user_id_ account_type_ d)
        /\ (forall account_type_,
              Account.get_pending_total user_id_ account_type_ d'
              = Account.get_pending_total user_id_ account_type_ d))
  /\ (forall self saved,
        FinancialGoal.save now_text self d = Return (d', saved) ->
        written_user (FinancialGoal.id self) (FinancialGoal.user_id self)
          (fun k => financial_goals.user_id
                    <$> Sql.rows (db_financial_goals d) !! k)
        <> Some user_id_ ->
        forall is_completed_,
          FinancialGoal.get_by_user_id user_id_ is_completed_ d'
          = FinancialGoal.get_by_user_id user_id_ is_completed_ d).
Proof.
  split; [|split].
  - intros self saved Hsave Hother.
    pose proof (Transaction_save_fetchall now_text self saved d d' user_id_)
      as Hsame.
    split; [|split].
    + unfold Transaction.count_by_user_id.
      rewrite (Hsame _ Hsave Hother); [done|].
      intros k r. apply holds_user.
    + intros month year.
      unfold Transaction.get_monthly_summary, Transaction.monthly_total,
        Transaction.monthly_where.
      rewrite !(Hsame _ Hsave Hother); [done|..];
        intros k r; apply holds_and_user.
    + intros order_rows limit order_by. unfold Transaction.get_by_user_id.
      rewrite (Hsame _ Hsave Hother); [done|].
      intros k r. apply holds_user.
  - intros self saved Hsave Hother.
    pose proof (Account_save_fetchall now_text self saved d d' user_id_)
      as Hsame.
    split.
    + intros oty. unfold Account.get_by_user_id.
      destruct oty as [[|c s]|]; (rewrite (Hsame _ Hsave Hother); [done|]);
        intros k r; (apply holds_user || apply holds_and_user).
    + intros ty. unfold Account.get_pending_total, Account.pending_where.
      rewrite (Hsame _ Hsave Hother); [done|].
      intros k r. apply holds_and_user.
  - intros self saved Hsave Hother ob.
    pose proof (FinancialGoal_save_fetchall now_text self saved d d' user_id_)
      as Hsame.
    unfold FinancialGoal.get_by_user_id.
    destruct ob as [b|]; (rewrite (Hsame _ Hsave Hother); [done|]);
      intros k r; (apply holds_user || apply holds_and_user).
Qed.

End isolation.

(** ** Concrete instances *)

(** The cases of a membership in a list that is written out. *)
Ltac each_member H :=
  repeat (apply elem_of_cons in H as [H|H]);
  [..|by apply elem_of_nil in H].

Lemma sample_registry_unique : users_unique (db_users sample_registry).
Proof.
  intros k1 k2 r1 r2 H1 H2 Hsame.
  apply scan_lookup in H1, H2. vm_compute in H1, H2.
  each_member H1; each_member H2; simplify_eq; try done;
    vm_compute in Hsame; by destruct Hsame.
Qed.

Lemma get_id_identifies_user_witness :
  User.get_id (User.of_row 2 (sample_user_row "rui" "rui@example.com")) = "2"
  /\ User.get_by_id (decode "2") sample_registry
     = Return (Some (User.of_row 2
                       (sample_user_row "rui" "rui@example.com")))
  /\ User.get_id (sample_trial_user None)
     <> User.get_id (sample_subscriber "active" None).
Proof.
  destruct get_id_identifies_user as [Hinj Hback].
  destruct (Hback sample_registry 2 (sample_user_row "rui" "rui@example.com"))
    as [Htext Hload]; [vm_compute; reflexivity|].
  split; [reflexivity|]. split; [exact Hload|].
  intros Heq. apply Hinj in Heq. discriminate Heq.
Defined.

Lemma lookup_hit_returns_matching_user_witness :
  users_unique (db_users sample_registry)
  /\ User.get_by_email "rui@example.com" sample_registry
     = Return (Some (User.of_row 2
                       (sample_user_row "rui" "rui@example.com")))
  /\ User.get_by_username "ana" sample_registry
     = Return (Some (User.of_row 1
                       (sample_user_row "ana" "ana@example.com"))).
Proof.
  split; [exact sample_registry_unique|].
  destruct (lookup_hit_returns_matching_user sample_registry)
    as (_ & _ & _ & Hfound).
  split.
  - apply (Hfound sample_registry_unique 2
             (sample_user_row "rui" "rui@example.com")).
    vm_compute. reflexivity.
  - apply (Hfound sample_registry_unique 1
             (sample_user_row "ana" "ana@example.com")).
    vm_compute. reflexivity.
Defined.

Lemma create_then_lookup_witness :
  users.taken "bia" "bia@example.com" (db_users sample_registry) = false
  /\ exists u d',
       @User.create reference_runtime sample_now sample_now_text "s" "bia"
         "bia@example.com" "segredo" "Bia Reis" None sample_registry
       = Return (d', Some u)
       /\ User.id u = Some 3
       /\ User.get_by_email "bia@example.com" d' = Return (Some u)
       /\ User.get_by_username "bia" d' = Return (Some u)
       /\ users_unique (db_users d')
       /\ @User.create reference_runtime (sample_now + 1) sample_now_text "t"
            "bia" "outra@example.com" "senha" "Outra Bia" None d'
          = Raise IntegrityError.
Proof.
  split; [reflexivity|].
  destruct (@create_then_lookup reference_runtime sample_now sample_now_text
              "s" "bia" "bia@example.com" "segredo" "Bia Reis" None
              sample_registry eq_refl)
    as (u & d' & Hcreate & Hemail & Huser & _ & _ & _ & Huniq & Hagain).
  exists u, d'. split; [exact Hcreate|]. split.
  { vm_compute in Hcreate. by injection Hcreate as _ <-. }
  split; [exact Hemail|]. split; [exact Huser|].
  split; [exact (Huniq sample_registry_unique)|].
  apply Hagain. by left.
Defined.

Lemma created_user_is_on_trial_witness :
  exists u d',
    @User.create reference_runtime sample_now sample_now_text "s" "ana"
      "ana@example.com" "segredo" "Ana Lima" None empty_database
    = Return (d', Some u)
    /\ User.is_active u = true
    /\ transactions_limit (User.get_plan_features u) = 10
    /\ @User.is_subscription_active reference_runtime
         (sample_now + 7 * 86400 * 1000000) u = Return (Bool true)
    /\ @User.is_subscription_active reference_runtime
         (sample_now + 7 * 86400 * 1000000 + 1) u = Return (Bool false).
Proof.
  assert (exists u d',
            @User.create reference_runtime sample_now sample_now_text "s"
              "ana" "ana@example.com" "segredo" "Ana Lima" None
              empty_database = Return (d', Some u)) as (u & d' & Hcreate).
  { eexists _, _. vm_compute. reflexivity. }
  exists u, d'. split; [exact Hcreate|].
  destruct (@created_user_is_on_trial reference_runtime sample_now
              sample_now_text "s" "ana" "ana@example.com" "segredo"
              "Ana Lima" None empty_database d' u Hcreate)
    as (Hactive & _ & _ & Hplan & _ & _ & Hsub).
  split; [exact Hactive|]. split; [by rewrite Hplan|].
  split; rewrite Hsub by (vm_compute; reflexivity); reflexivity.
Defined.





Lemma account_lookup_checks_owner_witness :
  Account.get_by_id 5 (Some 1) sample_ledger = Return None
  /\ (exists a, Account.get_by_id 5 (Some 2) sample_ledger = Return (Some a)
                /\ Account.user_id a = Some 2)
  /\ exists a, Account.get_by_id 5 (Some 0) sample_ledger = Return (Some a)
               /\ Account.get_by_id 5 None sample_ledger = Return (Some a)
               /\ Account.user_id a = Some 2.
Proof.
  destruct (account_lookup_checks_owner 5 sample_ledger)
    as (_ & Hown & _ & Hzero).
  split; [vm_compute; reflexivity|]. split.
  - assert (exists a, Account.get_by_id 5 (Some 2) sample_ledger
                      = Return (Some a)) as [a Ha].
    { eexists. vm_compute. reflexivity. }
    exists a. split; [exact Ha|]. by apply (Hown 2 a).
  - eexists. rewrite Hzero. split; [vm_compute; reflexivity|].
    split; [vm_compute; reflexivity|]. reflexivity.
Defined.


Lemma new_record_is_listed_last_witness :
  exists d' saved before new,
    Account.save sample_now_text sample_account sample_ledger
    = Return (d', saved)
    /\ Account.get_by_user_id 1 (Some "payable") sample_ledger = Return before
    /\ Account.get_by_user_id 1 (Some "payable") d' = Return (before ++ [new])
    /\ Account.id new = Some 6
    /\ Account.created_at new = Some sample_now_text
    /\ Account.get_by_user_id 2 None d'
       = Account.get_by_user_id 2 None sample_ledger.
Proof.
  assert (exists d' saved,
            Account.save sample_now_text sample_account sample_ledger
            = Return (d', saved)) as (d' & saved & Hsave).
  { eexists _, _. vm_compute. reflexivity. }
  destruct (new_record_is_listed_last sample_now_text sample_ledger d')
    as [Hacc _].
  destruct (Hacc sample_account saved eq_refl Hsave)
    as (k & new & Hid & _ & Hnew & Hlist).
  assert (k = 6) as ->.
  { vm_compute in Hsave. injection Hsave as _ <-. by injection Hid as <-. }
  exists d', saved. eexists _, new. split; [exact Hsave|].
  split; [reflexivity|]. split; [|split; [|split]].
  - rewrite Hlist. reflexivity.
  - rewrite (Hnew sample_account_faithful). exact Hid.
  - rewrite (Hnew sample_account_faithful). reflexivity.
  - rewrite Hlist. unfold Account.get_by_user_id. cbn [mbind result_bind].
    rewrite decide_False; [done|]. intros [Hu _]. discriminate Hu.
Defined.

Lemma saves_stay_with_their_user_witness :
  exists d' saved,
    Account.save sample_now_text sample_account sample_ledger
    = Return (d', saved)
    /\ Account.get_pending_total 2 "payable" d' = Return 1000%float
    /\ Account.get_by_user_id 2 None d'
       = Account.get_by_user_id 2 None sample_ledger.
Proof.
  assert (exists d' saved,
            Account.save sample_now_text sample_account sample_ledger
            = Return (d', saved)) as (d' & saved & Hsave).
  { eexists _, _. vm_compute. reflexivity. }
  exists d', saved. split; [exact Hsave|].
  destruct (@saves_stay_with_their_user reference_runtime sample_now_text
              sample_ledger d' 2) as (_ & Hacc & _).
  destruct (Hacc sample_account saved Hsave) as [Hlist Htotal].
  { vm_compute. discriminate. }
  split; [by rewrite Htotal|]. apply Hlist.
Defined.
